(** * Novel Sharing API: catalog query and aggregation layer

    A shallow embedding of [main.py] and [schemas.py].  Python strings are
    [string]s (one [ascii] per code point; code points above 255 behave like
    the non-ASCII ones in 128..255 wherever this development inspects
    characters), Python integers are [Z], a raised exception is the [Raise]
    branch of [result], and the MongoDB database is an explicit value that
    the write operations return updated. *)

From Stdlib Require Import List String Ascii Strings.Byte ZArith NArith Bool Lia.
From Stdlib Require Import Permutation Sorted.
Import ListNotations.

Set Implicit Arguments.

Local Open Scope string_scope.
Local Open Scope list_scope.
Local Open Scope Z_scope.

(** ** Exceptions *)

Inductive error : Type :=
| HTTPException (status_code : Z) (detail : string)
| RequestValidationError (param : string)
| Exception (name : string)
| NotModelled (what : string).

Inductive result (A : Type) : Type :=
| Ok (a : A)
| Raise (e : error).

Arguments Ok {A} a.
Arguments Raise {A} e.

Definition bind {A B : Type} (r : result A) (k : A -> result B) : result B :=
  match r with
  | Ok a => k a
  | Raise e => Raise e
  end.

Notation "x <- r ;; k" := (bind r (fun x => k))
  (at level 61, r at next level, right associativity).

(** The lower-case form of an ASCII letter; other characters are kept. *)
Definition ascii_lower (c : ascii) : ascii :=
  let n := N_of_ascii c in
  if ((65 <=? n) && (n <=? 90))%N then ascii_of_N (n + 32) else c.

(** ** [bson.ObjectId]

    The constructor, restricted to [str] arguments as [to_obj_id] and
    [get_library] call it: the length must be 24 and [bytes.fromhex] must
    accept the string.  [bytes.fromhex] (CPython's [_PyBytes_FromHex]) skips
    ASCII white space before each byte and then wants two characters whose
    [_PyLong_DigitValue] is below 16. *)

Module ObjectId.

Local Open Scope N_scope.

Definition t : Type := list byte.

Definition digit_value (c : ascii) : N :=
  let n := N_of_ascii c in
  if (48 <=? n) && (n <=? 57) then n - 48
  else if (97 <=? n) && (n <=? 122) then n - 87
  else if (65 <=? n) && (n <=? 90) then n - 55
  else 37.

Definition is_space (c : ascii) : bool :=
  let n := N_of_ascii c in
  ((9 <=? n) && (n <=? 13)) || (n =? 32).

Definition is_hex (c : ascii) : bool := digit_value c <? 16.

Definition mk_byte (top bot : N) : byte :=
  byte_of_ascii (ascii_of_N (16 * top + bot)).

Fixpoint fromhex (s : list ascii) : option (list byte) :=
  match s with
  | [] => Some []
  | c :: rest =>
      if is_space c then fromhex rest
      else
        match rest with
        | [] => None
        | d :: rest' =>
            if is_hex c && is_hex d then
              option_map (cons (mk_byte (digit_value c) (digit_value d)))
                         (fromhex rest')
            else None
        end
  end.

(** [ObjectId(oid)] for a [str]; [None] stands for [InvalidId]. *)
Definition new (oid : string) : option t :=
  if (String.length oid =? 24)%nat then fromhex (list_ascii_of_string oid)
  else None.

(** [ObjectId.is_valid(oid)] for a [str]. *)
Definition is_valid (oid : string) : bool :=
  match oid with
  | EmptyString => false
  | _ => match new oid with Some _ => true | None => false end
  end.

Definition hexchar (n : N) : ascii :=
  nth (N.to_nat n) (list_ascii_of_string "0123456789abcdef") "0"%char.

Definition hex_of_byte (b : byte) : list ascii :=
  let n := Byte.to_N b in
  [hexchar (n / 16); hexchar (n mod 16)].

Definition hexlify (bs : list byte) : list ascii := flat_map hex_of_byte bs.

(** [str(oid)]: [binascii.hexlify(self.__id).decode()]. *)
Definition str (o : t) : string := string_of_list_ascii (hexlify o).

End ObjectId.

(** ** Helpers of [main.py] *)

Definition to_obj_id (id_str : string) : result ObjectId.t :=
  match ObjectId.new id_str with
  | Some o => Ok o
  | None => Raise (HTTPException 400 "Invalid ID")
  end.

(** The spec's identifier format: 24 characters, each one of [0-9a-f]. *)
Definition is_lower_hex (c : ascii) : bool :=
  let n := N_of_ascii c in
  (((48 <=? n) && (n <=? 57)) || ((97 <=? n) && (n <=? 102)))%N.

Definition lower_hex24 (s : string) : bool :=
  (String.length s =? 24)%nat && forallb is_lower_hex (list_ascii_of_string s).

(** ** Values and documents

    An identifier slot of a Python dict holds either the store's native
    [ObjectId] or a [str].  [ident] is used for the ["_id"] key of every
    document and for the [book_id] of a stored chapter, the one field the
    code joins against a native identifier. *)

Inductive ident : Type :=
| Oid (o : ObjectId.t)
| Str (s : string).

(** [str(x)] on an identifier slot. *)
Definition py_str (x : ident) : string :=
  match x with
  | Oid o => ObjectId.str o
  | Str s => s
  end.

(** The BSON values the four collections hold. *)
Inductive bson : Type :=
| BNull
| BInt (z : Z)
| BStr (s : string)
| BOid (o : ObjectId.t)
| BArr (l : list string).

Fixpoint oid_eqb (a b : ObjectId.t) : bool :=
  match a, b with
  | [], [] => true
  | x :: a', y :: b' => Byte.eqb x y && oid_eqb a' b'
  | _, _ => false
  end.

Fixpoint strs_eqb (a b : list string) : bool :=
  match a, b with
  | [], [] => true
  | x :: a', y :: b' => String.eqb x y && strs_eqb a' b'
  | _, _ => false
  end.

Definition bson_eqb (a b : bson) : bool :=
  match a, b with
  | BNull, BNull => true
  | BInt x, BInt y => Z.eqb x y
  | BStr x, BStr y => String.eqb x y
  | BOid x, BOid y => oid_eqb x y
  | BArr x, BArr y => strs_eqb x y
  | _, _ => false
  end.

Definition ident_bson (x : ident) : bson :=
  match x with
  | Oid o => BOid o
  | Str s => BStr s
  end.

Definition opt_bson {A : Type} (f : A -> bson) (x : option A) : bson :=
  match x with
  | Some a => f a
  | None => BNull
  end.

(** *** [schemas.py] *)

Module Book.
Record t : Type := mk {
  title : string;
  description : option string;
  author_name : string;
  cover_url : option string;
  tags : list string;
  categories : list string;
  genre : option string;
  status : string
}.
End Book.

Module Chapter.
Record t : Type := mk {
  book_id : string;
  title : string;
  content : string;
  chapter_number : option Z
}.
End Chapter.

Module Comment.
Record t : Type := mk {
  book_id : string;
  user_name : string;
  content : string
}.
End Comment.

Module LibraryItem.
Record t : Type := mk {
  user_id : string;
  book_id : string
}.
End LibraryItem.

(** A chapter as the collection holds it: the store is schemaless, so
    [book_id] is whatever identifier value was inserted; [create_chapter]
    always inserts the [str] of the request ([model_dump]). *)
Module ChapterDoc.
Record t : Type := mk {
  book_id : ident;
  title : string;
  content : string;
  chapter_number : option Z
}.

Definition model_dump (c : Chapter.t) : t :=
  mk (Str (Chapter.book_id c)) (Chapter.title c) (Chapter.content c)
     (Chapter.chapter_number c).
End ChapterDoc.

(** The response model of the write endpoints. *)
Module ObjectIdStr.
Record t : Type := mk { id : string }.
End ObjectIdStr.

(** A document: the dict pymongo hands out, with its ["_id"] slot and the
    two timestamps the queries sort on (absent when [None]). *)
Record doc (A : Type) : Type := Doc {
  _id : ident;
  body : A;
  created_at : option Z;
  updated_at : option Z
}.

Arguments Doc {A} _ _ _ _.

(** [d["_id"] = str(d["_id"])] *)
Definition encode_id {A : Type} (d : doc A) : doc A :=
  Doc (Str (py_str (_id d))) (body d) (created_at d) (updated_at d).

(** The fields of a document body by name, as a query sees them. *)
Class Fields (A : Type) : Type := fields : A -> list (string * bson).

#[export] Instance Book_fields : Fields Book.t := fun b =>
  [ ("title", BStr (Book.title b));
    ("description", opt_bson BStr (Book.description b));
    ("author_name", BStr (Book.author_name b));
    ("cover_url", opt_bson BStr (Book.cover_url b));
    ("tags", BArr (Book.tags b));
    ("categories", BArr (Book.categories b));
    ("genre", opt_bson BStr (Book.genre b));
    ("status", BStr (Book.status b)) ].

#[export] Instance ChapterDoc_fields : Fields ChapterDoc.t := fun c =>
  [ ("book_id", ident_bson (ChapterDoc.book_id c));
    ("title", BStr (ChapterDoc.title c));
    ("content", BStr (ChapterDoc.content c));
    ("chapter_number", opt_bson BInt (ChapterDoc.chapter_number c)) ].

#[export] Instance Comment_fields : Fields Comment.t := fun c =>
  [ ("book_id", BStr (Comment.book_id c));
    ("user_name", BStr (Comment.user_name c));
    ("content", BStr (Comment.content c)) ].

#[export] Instance LibraryItem_fields : Fields LibraryItem.t := fun i =>
  [ ("user_id", BStr (LibraryItem.user_id i));
    ("book_id", BStr (LibraryItem.book_id i)) ].

Definition doc_fields {A : Type} `{Fields A} (d : doc A) : list (string * bson) :=
  ("_id", ident_bson (_id d)) :: fields (body d).

(** A missing field reads as null in an equality match. *)
Fixpoint get_field (k : string) (fs : list (string * bson)) : bson :=
  match fs with
  | [] => BNull
  | (k', v) :: fs' => if String.eqb k' k then v else get_field k fs'
  end.

(** The database: four collections, each in insertion order. *)
Record database : Type := Database {
  book : list (doc Book.t);
  chapter : list (doc ChapterDoc.t);
  comment : list (doc Comment.t);
  libraryitem : list (doc LibraryItem.t)
}.

(** ** Queries

    A filter is the Python dict the code passes to the driver: a condition
    per field name. *)

Inductive cond : Type :=
| CEq (v : bson)
| CIn (vs : list bson)
| CRegex (pattern options : string).

Definition filter : Type := list (string * cond).

(** *** Regular expressions

    The store interprets a [$regex] pattern as a Perl-compatible regular
    expression.  The fragment modelled here is: a character that is not a
    metacharacter matches itself, and [.] matches any character but a
    newline.  A pattern that uses any other metacharacter is outside the
    fragment ([compile] answers [None]).  Option ["i"] folds the case of the
    ASCII letters. *)

Module Regex.

Inductive atom : Type :=
| Lit (c : ascii)
| Dot.

Definition is_meta (c : ascii) : bool :=
  existsb (Ascii.eqb c) (list_ascii_of_string "\^$.|?*+()[]{}").

Fixpoint compile (p : list ascii) : option (list atom) :=
  match p with
  | [] => Some []
  | c :: p' =>
      if Ascii.eqb c "."%char then option_map (cons Dot) (compile p')
      else if is_meta c then None
      else option_map (cons (Lit c)) (compile p')
  end.

Definition atom_matches (caseless : bool) (a : atom) (c : ascii) : bool :=
  match a with
  | Dot => negb (Ascii.eqb c "010"%char)
  | Lit x =>
      if caseless then Ascii.eqb (ascii_lower x) (ascii_lower c) else Ascii.eqb x c
  end.

(** The pattern matches a prefix of the subject. *)
Fixpoint match_here (caseless : bool) (p : list atom) (s : list ascii) : bool :=
  match p, s with
  | [], _ => true
  | a :: p', c :: s' => atom_matches caseless a c && match_here caseless p' s'
  | _ :: _, [] => false
  end.

(** Unanchored search: the pattern matches at some offset. *)
Fixpoint search (caseless : bool) (p : list atom) (s : list ascii) : bool :=
  match_here caseless p s
  || match s with
     | [] => false
     | _ :: s' => search caseless p s'
     end.

Definition caseless_of (options : string) : option bool :=
  if String.eqb options "i" then Some true
  else if String.eqb options "" then Some false
  else None.

End Regex.

(** A condition once the server has parsed it. *)
Inductive ccond : Type :=
| KEq (v : bson)
| KIn (vs : list bson)
| KRegex (caseless : bool) (p : list Regex.atom).

Definition compile_cond (c : cond) : option ccond :=
  match c with
  | CEq v => Some (KEq v)
  | CIn vs => Some (KIn vs)
  | CRegex pattern options =>
      match Regex.caseless_of options,
            Regex.compile (list_ascii_of_string pattern) with
      | Some cl, Some p => Some (KRegex cl p)
      | _, _ => None
      end
  end.

Fixpoint compile_filter (f : filter) : option (list (string * ccond)) :=
  match f with
  | [] => Some []
  | (k, c) :: f' =>
      match compile_cond c, compile_filter f' with
      | Some c', Some r => Some ((k, c') :: r)
      | _, _ => None
      end
  end.

(** Equality against a field: the values are equal (the comparison is
    sensitive to the BSON type: an [ObjectId] never equals a string), or the
    field is an array with an equal element. *)
Definition eq_matches (x v : bson) : bool :=
  bson_eqb x v
  || match x, v with
     | BStr s, BArr l => existsb (String.eqb s) l
     | _, _ => false
     end.

Definition regex_matches (caseless : bool) (p : list Regex.atom) (v : bson) : bool :=
  match v with
  | BStr s => Regex.search caseless p (list_ascii_of_string s)
  | BArr l =>
      existsb (fun s => Regex.search caseless p (list_ascii_of_string s)) l
  | _ => false
  end.

Definition cond_matches (c : ccond) (v : bson) : bool :=
  match c with
  | KEq x => eq_matches x v
  | KIn xs => existsb (fun x => eq_matches x v) xs
  | KRegex cl p => regex_matches cl p v
  end.

(** All the conditions of a filter must hold. *)
Definition filter_matches (f : list (string * ccond)) (fs : list (string * bson)) : bool :=
  forallb (fun kc => cond_matches (snd kc) (get_field (fst kc) fs)) f.

(** *** The driver's collection methods *)

Section Collection.

Context {A : Type} `{Fields A}.

(** [collection.find(filter)], in natural (insertion) order. *)
Definition find (coll : list (doc A)) (f : filter) : result (list (doc A)) :=
  match compile_filter f with
  | Some cf => Ok (List.filter (fun d => filter_matches cf (doc_fields d)) coll)
  | None => Raise (NotModelled "regex")
  end.

(** [collection.find_one(filter)] *)
Definition find_one (coll : list (doc A)) (f : filter) : result (option (doc A)) :=
  docs <- find coll f ;; Ok (hd_error docs).

(** [collection.count_documents(filter)] *)
Definition count_documents (coll : list (doc A)) (f : filter) : result Z :=
  docs <- find coll f ;; Ok (Z.of_nat (List.length docs)).

(** Modelled from the spec: [get_documents] of the repository's
    [database] module, which is not part of the sources at hand; the
    spec's [find(collectionName, filterExpr, limit)] produces the matching
    documents up to [limit]. *)
Definition get_documents (coll : list (doc A)) (f : filter) (limit : Z)
  : result (list (doc A)) :=
  docs <- find coll f ;; Ok (firstn (Z.to_nat limit) docs).

(** Modelled from the spec: [create_document] of the repository's
    [database] module, which is not part of the sources at hand; the
    spec's [create(collectionName, document)] inserts the document and
    returns the encoded identifier of the new record.  [fresh] is the
    identifier the store generates for it. *)
Definition create_document (coll : list (doc A)) (data : A) (fresh : ObjectId.t)
  : string * list (doc A) :=
  (ObjectId.str fresh, coll ++ [Doc (Oid fresh) data None None]).

End Collection.

(** *** Sorting

    [sort_by le] is a stable insertion sort; the store leaves the order of
    documents with equal keys open, the model keeps them in natural order. *)

Fixpoint insert_by {A : Type} (le : A -> A -> bool) (x : A) (l : list A) : list A :=
  match l with
  | [] => [x]
  | y :: l' => if le x y then x :: l else y :: insert_by le x l'
  end.

Definition sort_by {A : Type} (le : A -> A -> bool) (l : list A) : list A :=
  fold_right (insert_by le) [] l.

(** BSON order on an optional number or date: missing and null come first. *)
Definition opt_leb (a b : option Z) : bool :=
  match a, b with
  | None, _ => true
  | Some _, None => false
  | Some x, Some y => x <=? y
  end.

Definition opt_eqb (a b : option Z) : bool := opt_leb a b && opt_leb b a.

(** *** Python dicts keyed by strings (insertion-ordered) *)

Fixpoint dict_set {V : Type} (m : list (string * V)) (k : string) (v : V)
  : list (string * V) :=
  match m with
  | [] => [(k, v)]
  | (k', v') :: m' =>
      if String.eqb k' k then (k, v) :: m' else (k', v') :: dict_set m' k v
  end.

Fixpoint dict_get {V : Type} (m : list (string * V)) (k : string) : option V :=
  match m with
  | [] => None
  | (k', v) :: m' => if String.eqb k' k then Some v else dict_get m' k
  end.

(** [if x: ...] on an [Optional[str]]: [None] and the empty string are
    falsy. *)
Definition if_str {T : Type} (x : option string) (then_ : string -> T) (else_ : T) : T :=
  match x with
  | Some (String _ _ as s) => then_ s
  | _ => else_
  end.

(** A parameter with a default. *)
Definition default {T : Type} (d : T) (x : option T) : T :=
  match x with
  | Some v => v
  | None => d
  end.

(** [Query(d, ge=lo, le=hi)]: the framework rejects a value out of range
    before the function body runs. *)
Definition Query (d lo hi : Z) (param : string) (x : option Z) : result Z :=
  match x with
  | None => Ok d
  | Some v =>
      if (lo <=? v) && (v <=? hi) then Ok v
      else Raise (RequestValidationError param)
  end.

(** ** The endpoints of [main.py] *)

Definition set_book (db : database) (c : list (doc Book.t)) : database :=
  Database c (chapter db) (comment db) (libraryitem db).
Definition set_chapter (db : database) (c : list (doc ChapterDoc.t)) : database :=
  Database (book db) c (comment db) (libraryitem db).
Definition set_comment (db : database) (c : list (doc Comment.t)) : database :=
  Database (book db) (chapter db) c (libraryitem db).
Definition set_libraryitem (db : database) (c : list (doc LibraryItem.t)) : database :=
  Database (book db) (chapter db) (comment db) c.

(** *** Books *)

Definition create_book (db : database) (b : Book.t) (fresh : ObjectId.t)
  : result (ObjectIdStr.t * database) :=
  let (book_id, coll) := create_document (book db) b fresh in
  Ok (ObjectIdStr.mk book_id, set_book db coll).

(** Lines 86-94 of [list_books]. *)
Definition filter_dict (q tag category genre : option string) : filter :=
  let d := [] in
  let d := if_str q (fun q => dict_set d "title" (CRegex q "i")) d in
  let d := if_str tag (fun tag => dict_set d "tags" (CEq (BStr tag))) d in
  let d := if_str category (fun category => dict_set d "categories" (CEq (BStr category))) d in
  let d := if_str genre (fun genre => dict_set d "genre" (CEq (BStr genre))) d in
  d.

Definition list_books (db : database) (q tag category genre : option string)
           (limit : option Z)
  : result (list (doc Book.t)) :=
  limit <- Query 50 1 100 "limit" limit ;;
  books <- get_documents (book db) (filter_dict q tag category genre) limit ;;
  Ok (map encode_id books).

Definition get_book (db : database) (book_id : string) : result (doc Book.t) :=
  oid <- to_obj_id book_id ;;
  found <- find_one (book db) [("_id", CEq (BOid oid))] ;;
  match found with
  | None => Raise (HTTPException 404 "Book not found")
  | Some d => Ok (encode_id d)
  end.

(** *** Chapters *)

Definition create_chapter (db : database) (req : Chapter.t) (fresh : ObjectId.t)
  : result (ObjectIdStr.t * database) :=
  req <-
    match Chapter.chapter_number req with
    | None =>
        count <- count_documents (chapter db)
                   [("book_id", CEq (BStr (Chapter.book_id req)))] ;;
        Ok (Chapter.mk (Chapter.book_id req) (Chapter.title req)
                       (Chapter.content req) (Some (count + 1)))
    | Some _ => Ok req
    end ;;
  let (chapter_id, coll) :=
    create_document (chapter db) (ChapterDoc.model_dump req) fresh in
  Ok (ObjectIdStr.mk chapter_id, set_chapter db coll).

Definition list_chapters (db : database) (book_id : string)
  : result (list (doc ChapterDoc.t)) :=
  found <- find (chapter db) [("book_id", CEq (BStr book_id))] ;;
  let chapters :=
    sort_by (fun a b => opt_leb (ChapterDoc.chapter_number (body a))
                                (ChapterDoc.chapter_number (body b))) found in
  Ok (map encode_id chapters).

Definition get_chapter (db : database) (chapter_id : string)
  : result (doc ChapterDoc.t) :=
  oid <- to_obj_id chapter_id ;;
  found <- find_one (chapter db) [("_id", CEq (BOid oid))] ;;
  match found with
  | None => Raise (HTTPException 404 "Chapter not found")
  | Some d => Ok (encode_id d)
  end.

(** *** Comments *)

Definition add_comment (db : database) (c : Comment.t) (fresh : ObjectId.t)
  : result (ObjectIdStr.t * database) :=
  let (comment_id, coll) := create_document (comment db) c fresh in
  Ok (ObjectIdStr.mk comment_id, set_comment db coll).

Definition list_comments (db : database) (book_id : string)
  : result (list (doc Comment.t)) :=
  found <- find (comment db) [("book_id", CEq (BStr book_id))] ;;
  let comments := sort_by (fun a b => opt_leb (created_at b) (created_at a)) found in
  Ok (map encode_id comments).

(** *** Library *)

Definition add_to_library (db : database) (item : LibraryItem.t) (fresh : ObjectId.t)
  : result (ObjectIdStr.t * database) :=
  existing <- find_one (libraryitem db)
                [("user_id", CEq (BStr (LibraryItem.user_id item)));
                 ("book_id", CEq (BStr (LibraryItem.book_id item)))] ;;
  match existing with
  | Some e => Ok (ObjectIdStr.mk (py_str (_id e)), db)
  | None =>
      let (new_id, coll) := create_document (libraryitem db) item fresh in
      Ok (ObjectIdStr.mk new_id, set_libraryitem db coll)
  end.

(** [[ObjectId(b) for b in book_ids if ObjectId.is_valid(b)]] *)
Fixpoint valid_object_ids (book_ids : list string) : result (list ObjectId.t) :=
  match book_ids with
  | [] => Ok []
  | b :: rest =>
      if ObjectId.is_valid b then
        match ObjectId.new b with
        | Some o => os <- valid_object_ids rest ;; Ok (o :: os)
        | None => Raise (Exception "InvalidId")
        end
      else valid_object_ids rest
  end.

Definition enumerate {A : Type} (l : list A) : list (nat * A) :=
  combine (seq 0 (List.length l)) l.

(** [{str(b["_id"]): b for b in books}].  The fetched dicts live in the list
    [books] and the map refers to them by position, so the loop that
    rewrites ["_id"] afterwards is seen through the map as well. *)
Definition book_map_of (books : list (doc Book.t)) : list (string * nat) :=
  fold_left (fun m ib => dict_set m (py_str (_id (snd ib))) (fst ib))
            (enumerate books) [].

Definition get_library (db : database) (user_id : string)
  : result (list (doc Book.t)) :=
  items <- find (libraryitem db) [("user_id", CEq (BStr user_id))] ;;
  let book_ids := map (fun it => LibraryItem.book_id (body it)) items in
  oids <- valid_object_ids book_ids ;;
  books <- find (book db) [("_id", CIn (map BOid oids))] ;;
  let book_map := book_map_of books in
  let books := map encode_id books in
  Ok (flat_map
        (fun bid =>
           match dict_get book_map bid with
           | Some i =>
               match nth_error books i with
               | Some b => [b]
               | None => []
               end
           | None => []
           end)
        book_ids).

(** *** Discover *)

(** A book as the trending pipeline returns it. *)
Module Trending.
Record t : Type := mk {
  book : Book.t;
  chapters : list (doc ChapterDoc.t);
  chapters_count : Z
}.
End Trending.

(** [$lookup] compares the local and the foreign value as BSON values. *)
Definition lookup_stage (chapters : list (doc ChapterDoc.t)) (d : doc Book.t)
  : doc (Book.t * list (doc ChapterDoc.t)) :=
  Doc (_id d)
      (body d,
       List.filter
         (fun c => bson_eqb (ident_bson (_id d))
                            (ident_bson (ChapterDoc.book_id (body c))))
         chapters)
      (created_at d) (updated_at d).

(** [$addFields]: the size of the joined array without its nulls; a joined
    document is never null. *)
Definition add_fields_stage (d : doc (Book.t * list (doc ChapterDoc.t)))
  : doc Trending.t :=
  let '(b, cs) := body d in
  Doc (_id d)
      (Trending.mk b cs (Z.of_nat (List.length (List.filter (fun _ => true) cs))))
      (created_at d) (updated_at d).

(** [$sort: {chapters_count: -1, updated_at: -1}] *)
Definition trending_le (a b : doc Trending.t) : bool :=
  let ca := Trending.chapters_count (body a) in
  let cb := Trending.chapters_count (body b) in
  (cb <? ca) || ((cb =? ca) && opt_leb (updated_at b) (updated_at a)).

(** [db["book"].aggregate(pipeline)]; [$limit] takes a positive number. *)
Definition aggregate_trending (db : database) (limit : Z)
  : result (list (doc Trending.t)) :=
  if limit <=? 0 then Raise (Exception "OperationFailure")
  else
    let joined := map (lookup_stage (chapter db)) (book db) in
    let counted := map add_fields_stage joined in
    let sorted := sort_by trending_le counted in
    Ok (firstn (Z.to_nat limit) sorted).

Definition discover_trending (db : database) (limit : option Z)
  : result (list (doc Trending.t)) :=
  let limit := default 12 limit in
  data <- aggregate_trending db limit ;;
  Ok (map encode_id data).

Definition discover_by_tag (db : database) (tag : string) (limit : option Z)
  : result (list (doc Book.t)) :=
  let limit := default 24 limit in
  books <- get_documents (book db) [("tags", CEq (BStr tag))] limit ;;
  Ok (map encode_id books).


(** ** Notions the properties are stated with *)

(** The book-listing filter applied to one document ([None]: the pattern is
    outside the modelled fragment of regular expressions). *)
Definition book_filter_matches (q tag category genre : option string) (d : doc Book.t)
  : option bool :=
  option_map (fun cf => filter_matches cf (doc_fields d))
             (compile_filter (filter_dict q tag category genre)).

Definition lower_string (s : string) : list ascii :=
  map ascii_lower (list_ascii_of_string s).

(** [q] occurs in [t] as a substring, up to the case of ASCII letters. *)
Definition ci_substring (q t : string) : Prop :=
  exists pre post, lower_string t = pre ++ lower_string q ++ post.

Definition ident_eqb (a b : ident) : bool := bson_eqb (ident_bson a) (ident_bson b).

(** The number of stored chapters whose [book_id] is the string [b]. *)
Definition chapters_of (db : database) (b : string) : nat :=
  List.length
    (List.filter (fun d => ident_eqb (ChapterDoc.book_id (body d)) (Str b)) (chapter db)).

(** The number of stored library items for the pair of [item]. *)
Definition saved_pairs (db : database) (item : LibraryItem.t) : nat :=
  List.length
    (List.filter
       (fun d => String.eqb (LibraryItem.user_id (body d)) (LibraryItem.user_id item)
                 && String.eqb (LibraryItem.book_id (body d)) (LibraryItem.book_id item))
       (libraryitem db)).

(** Identifiers as the store keeps them: distinct within a collection, a
    native one of 12 bytes. *)
Definition well_formed_ids {A : Type} (coll : list (doc A)) : Prop :=
  NoDup (map (fun d => _id d) coll)
  /\ Forall (fun d => match _id d with
                      | Oid o => List.length o = 12%nat
                      | Str _ => True
                      end) coll.

(** The books a [book_id] string refers to: those whose native identifier
    encodes to it. *)
Definition referenced (db : database) (bid : string) : list (doc Book.t) :=
  List.filter (fun d => match _id d with
                        | Oid o => String.eqb (ObjectId.str o) bid
                        | Str _ => false
                        end) (book db).

(** The library items of a user, in insertion order. *)
Definition saved_by (db : database) (user_id : string) : list (doc LibraryItem.t) :=
  List.filter (fun it => String.eqb (LibraryItem.user_id (body it)) user_id)
              (libraryitem db).

(** Does an identifier slot hold the store's native value? *)
Definition native (x : ident) : bool :=
  match x with
  | Oid _ => true
  | Str _ => false
  end.

(** Whether a document body holds a native identifier somewhere. *)
Class Natives (A : Type) : Type := natives : A -> bool.


#[export] Instance Book_natives : Natives Book.t := fun _ => false.
#[export] Instance Comment_natives : Natives Comment.t := fun _ => false.
#[export] Instance ChapterDoc_natives : Natives ChapterDoc.t :=
  fun c => native (ChapterDoc.book_id c).






(** The conjunction of two matches, either of which may be outside the
    modelled fragment. *)
Definition opt_and (x y : option bool) : option bool :=
  match x, y with
  | Some a, Some b => Some (a && b)
  | _, _ => None
  end.

(** The query holds no regular-expression metacharacter. *)
Definition plain (q : string) : bool :=
  forallb (fun c => negb (Regex.is_meta c)) (list_ascii_of_string q).

(** The identifiers [get_library] looks up: the saved [book_id]s that
    decode. *)
Definition decoded (book_ids : list string) : list ObjectId.t :=
  flat_map (fun b => match ObjectId.new b with Some o => [o] | None => [] end) book_ids.

(** The books the batched lookup of [get_library] fetches. *)
Definition fetched (db : database) (oids : list ObjectId.t) : list (doc Book.t) :=
  List.filter (fun d => match _id d with
                        | Oid o => existsb (fun x => oid_eqb x o) oids
                        | Str _ => false
                        end) (book db).

(** Every document a read endpoint returns is a stored one after
    [encode_id]. *)
Definition encoded_from {A : Type} (coll l : list (doc A)) : Prop :=
  forall d, In d l -> exists d0, In d0 coll /\ d = encode_id d0.

(** A book after the join and count stages of the trending pipeline. *)
Definition joined (db : database) (d0 : doc Book.t) : doc Trending.t :=
  add_fields_stage (lookup_stage (chapter db) d0).

(** ** Sample data *)

Module Sample.

Definition oid (b : byte) : ObjectId.t := repeat b 12.

Definition a_book (title : string) (tags : list string) : Book.t :=
  Book.mk title None "anon" None tags [] None "ongoing".

Definition bookA : doc Book.t :=
  Doc (Oid (oid x0a)) (a_book "Alpha" ["fantasy"]) None (Some 1).
Definition bookB : doc Book.t :=
  Doc (Oid (oid x0b)) (a_book "abc" ["high-fantasy"]) None (Some 3).
Definition bookC : doc Book.t :=
  Doc (Oid (oid x0c)) (a_book "xabcx" []) None (Some 2).

Definition idA : string := "0a0a0a0a0a0a0a0a0a0a0a0a".
Definition idB : string := "0b0b0b0b0b0b0b0b0b0b0b0b".
Definition idC : string := "0c0c0c0c0c0c0c0c0c0c0c0c".

(** A chapter as [create_chapter] stores it. *)
Definition a_chapter (i : byte) (book_id : string) (n : Z) : doc ChapterDoc.t :=
  Doc (Oid (oid i)) (ChapterDoc.mk (Str book_id) "title" "text" (Some n)) None None.

Definition saved (i : byte) (book_id : string) : doc LibraryItem.t :=
  Doc (Oid (oid i)) (LibraryItem.mk "user" book_id) None None.

(** Three books; five chapters for [bookA], none for [bookB], three for
    [bookC]; [bookB] is the most recently updated. *)
Definition db : database :=
  Database
    [bookA; bookB; bookC]
    [a_chapter x10 idA 1; a_chapter x11 idA 2; a_chapter x12 idA 3;
     a_chapter x13 idA 4; a_chapter x14 idA 5;
     a_chapter x15 idC 1; a_chapter x16 idC 2; a_chapter x17 idC 3]
    []
    [].


(** Chapters 1 and 2 of [bookB] exist; a request for one more without a
    number. *)
Definition two_chapters_db : database :=
  Database [bookB] [a_chapter x10 idB 1; a_chapter x11 idB 2] [] [].

Definition next_chapter : Chapter.t := Chapter.mk idB "title" "text" None.

(** A chapter whose [book_id] holds the native identifier of [bookA]. *)
Definition native_ref_db : database :=
  Database
    [bookA]
    [Doc (Oid (oid x10)) (ChapterDoc.mk (Oid (oid x0a)) "title" "text" (Some 1))
         None None]
    [] [].

End Sample.

(** ** Further notions *)

(** [s.lower()] on the ASCII letters. *)
Definition py_lower (s : string) : string :=
  string_of_list_ascii (map ascii_lower (list_ascii_of_string s)).

(** The stored documents with a given native identifier. *)
Definition with_id {A : Type} (coll : list (doc A)) (o : ObjectId.t) : list (doc A) :=
  List.filter (fun d => ident_eqb (_id d) (Oid o)) coll.

(** The stored chapters of a book, by the [book_id] string. *)
Definition chapters_for (db : database) (book_id : string) : list (doc ChapterDoc.t) :=
  List.filter (fun d => ident_eqb (ChapterDoc.book_id (body d)) (Str book_id))
              (chapter db).

(** The stored comments of a book. *)
Definition comments_for (db : database) (book_id : string) : list (doc Comment.t) :=
  List.filter (fun d => String.eqb (Comment.book_id (body d)) book_id) (comment db).

(** Ascending chapter numbers, a missing number first. *)
Definition by_number (a b : doc ChapterDoc.t) : Prop :=
  opt_leb (ChapterDoc.chapter_number (body a)) (ChapterDoc.chapter_number (body b)) = true.

(** Newest first, a missing creation time last. *)
Definition newest_first (a b : doc Comment.t) : Prop :=
  opt_leb (created_at b) (created_at a) = true.

(** More chapters first, then the more recently updated. *)
Definition trending_order (a b : doc Trending.t) : Prop := trending_le a b = true.

(** The stored chapters whose [book_id] is equal, as a BSON value, to the
    identifier of a book. *)
Definition joinable (db : database) (d : doc Book.t) : list (doc ChapterDoc.t) :=
  List.filter (fun c => ident_eqb (_id d) (ChapterDoc.book_id (body c))) (chapter db).

(** At most one library item per (user_id, book_id) pair. *)
Definition unique_pairs (db : database) : Prop :=
  forall item : LibraryItem.t, (saved_pairs db item <= 1)%nat.

(** Chapters created one after the other. *)
Fixpoint create_chapters (db : database) (reqs : list (Chapter.t * ObjectId.t))
  : result database :=
  match reqs with
  | [] => Ok db
  | (req, fresh) :: rest =>
      x <- create_chapter db req fresh ;; create_chapters (snd x) rest
  end.

(** The shape of a database written through the endpoints: every document
    carries a native identifier and every chapter refers to its book by a
    string. *)
Definition endpoint_shaped (db : database) : Prop :=
  Forall (fun d => native (_id d) = true) (book db)
  /\ Forall (fun d => native (_id d) = true) (chapter db)
  /\ Forall (fun d => native (_id d) = true) (comment db)
  /\ Forall (fun d => native (_id d) = true) (libraryitem db)
  /\ Forall (fun c => native (ChapterDoc.book_id (body c)) = false) (chapter db).

(** * Properties *)

(** ** The identifier codec *)

Module ObjectIdFacts.

Import ObjectId.

Definition hexdigits : list ascii := list_ascii_of_string "0123456789abcdef".
Definition anyhex : list ascii := list_ascii_of_string "0123456789abcdefABCDEF".

Lemma lower_hex_cases (c : ascii) : is_lower_hex c = true -> In c hexdigits.
Proof.
  destruct c as [[] [] [] [] [] [] [] []]; vm_compute; intro E;
    try discriminate E; tauto.
Qed.

Lemma is_hex_cases (c : ascii) : is_hex c = true -> In c anyhex.
Proof.
  destruct c as [[] [] [] [] [] [] [] []]; vm_compute; intro E;
    try discriminate E; tauto.
Qed.

Ltac split_in H :=
  repeat (destruct H as [H | H]; [symmetry in H; subst | ]); try contradiction H.

Lemma hex_not_space (c : ascii) : is_hex c = true -> is_space c = false.
Proof. intro H; apply is_hex_cases in H; simpl in H; split_in H; reflexivity. Qed.

(** [binascii.hexlify] undoes one byte of [bytes.fromhex] on lower case. *)
Lemma hex_of_byte_lower (c d : ascii) :
  In c hexdigits -> In d hexdigits ->
  hex_of_byte (mk_byte (digit_value c) (digit_value d)) = [c; d].
Proof.
  intros Hc Hd; simpl in Hc, Hd; split_in Hc; split_in Hd; reflexivity.
Qed.

Lemma hex_of_byte_any (c d : ascii) :
  In c anyhex -> In d anyhex ->
  hex_of_byte (mk_byte (digit_value c) (digit_value d)) = [ascii_lower c; ascii_lower d].
Proof.
  intros Hc Hd; simpl in Hc, Hd; split_in Hc; split_in Hd; reflexivity.
Qed.

Lemma lower_is_hex (c : ascii) : is_lower_hex c = true -> is_hex c = true.
Proof. intro H; apply lower_hex_cases in H; simpl in H; split_in H; reflexivity. Qed.

Lemma lower_lower (c : ascii) : is_lower_hex c = true -> ascii_lower c = c.
Proof. intro H; apply lower_hex_cases in H; simpl in H; split_in H; reflexivity. Qed.

(** Induction over a list two elements at a time. *)
Lemma pair_ind (A : Type) (P : list A -> Prop) :
  P [] -> (forall x, P [x]) -> (forall x y l, P l -> P (x :: y :: l)) ->
  forall l, P l.
Proof.
  intros H0 H1 H2.
  assert (forall l, P l /\ forall x, P (x :: l)) as H.
  { induction l as [|y l [IH1 IH2]]; split; auto. }
  intro l; apply H.
Qed.

Lemma fromhex_any (l : list ascii) :
  forallb is_hex l = true -> Nat.even (List.length l) = true ->
  exists bs, fromhex l = Some bs /\ hexlify bs = map ascii_lower l.
Proof.
  induction l as [| x | x y l IH] using pair_ind; intros Hhex Hlen.
  - exists []; split; reflexivity.
  - discriminate Hlen.
  - simpl in Hhex.
    apply andb_true_iff in Hhex as [Hx Hhex].
    apply andb_true_iff in Hhex as [Hy Hhex].
    destruct (IH Hhex Hlen) as [bs [Hbs Hout]].
    exists (mk_byte (digit_value x) (digit_value y) :: bs); split.
    + simpl. rewrite (@hex_not_space _ Hx), Hx, Hy, Hbs. reflexivity.
    + unfold hexlify in *. cbn [flat_map map].
      rewrite Hout, (@hex_of_byte_any _ _ (@is_hex_cases _ Hx) (@is_hex_cases _ Hy)).
      reflexivity.
Qed.

Lemma fromhex_lower (l : list ascii) :
  forallb is_lower_hex l = true -> Nat.even (List.length l) = true ->
  exists bs, fromhex l = Some bs /\ hexlify bs = l.
Proof.
  intros Hlow Hlen.
  assert (forallb is_hex l = true) as Hhex.
  { rewrite forallb_forall in *. intros c Hc. apply lower_is_hex, Hlow, Hc. }
  destruct (@fromhex_any l Hhex Hlen) as [bs [Hbs Hout]].
  exists bs; split; [exact Hbs|].
  rewrite Hout. rewrite <- (map_id l) at 2.
  apply map_ext_in. intros c Hc. apply lower_lower.
  rewrite forallb_forall in Hlow. apply Hlow, Hc.
Qed.

(** A character that is neither a hexadecimal digit nor white space makes
    [bytes.fromhex] fail wherever it stands. *)
Lemma fromhex_chars (n : nat) : forall l bs,
  (List.length l <= n)%nat -> fromhex l = Some bs ->
  forall c, In c l -> is_hex c = true \/ is_space c = true.
Proof.
  induction n as [|n IH]; intros l bs Hn Hl c Hc.
  - destruct l; [contradiction Hc | simpl in Hn; lia].
  - destruct l as [|x l]; [contradiction Hc|].
    simpl in Hl, Hn.
    destruct (is_space x) eqn:Hsp.
    + destruct Hc as [<- | Hc]; [right; exact Hsp|].
      apply (@IH l bs); [lia | exact Hl | exact Hc].
    + destruct l as [|y l]; [discriminate Hl|].
      destruct (is_hex x) eqn:Hx; [|discriminate Hl].
      destruct (is_hex y) eqn:Hy; [|discriminate Hl].
      simpl in Hl.
      destruct (fromhex l) as [bs'|] eqn:Hrest; [|discriminate Hl].
      destruct Hc as [<- | [<- | Hc]]; [left; exact Hx | left; exact Hy |].
      apply (@IH l bs'); [simpl in Hn; lia | exact Hrest | exact Hc].
Qed.

Lemma hex_of_byte_inv (b : byte) :
  exists c d, hex_of_byte b = [c; d] /\ In c hexdigits /\ In d hexdigits
              /\ mk_byte (digit_value c) (digit_value d) = b.
Proof.
  destruct b; do 2 eexists; (split; [reflexivity|]); simpl; intuition reflexivity.
Qed.

Lemma hexdigit_is_hex (c : ascii) :
  In c hexdigits -> is_hex c = true /\ is_space c = false.
Proof. intro H; simpl in H; split_in H; split; reflexivity. Qed.

(** [bytes.fromhex] is a left inverse of [binascii.hexlify]. *)
Lemma fromhex_hexlify (bs : list byte) : fromhex (hexlify bs) = Some bs.
Proof.
  induction bs as [|b bs IH]; [reflexivity|].
  destruct (hex_of_byte_inv b) as [c [d [E [Hc [Hd Hb]]]]].
  unfold hexlify in *. cbn [flat_map]. rewrite E. cbn [app fromhex].
  destruct (@hexdigit_is_hex _ Hc) as [Hc1 Hc2].
  destruct (@hexdigit_is_hex _ Hd) as [Hd1 _].
  rewrite Hc2, Hc1, Hd1, IH, Hb. reflexivity.
Qed.

Lemma length_hexlify (bs : list byte) :
  List.length (hexlify bs) = (2 * List.length bs)%nat.
Proof.
  induction bs as [|b bs IH]; [reflexivity|].
  unfold hexlify in *. cbn [flat_map]. rewrite length_app, IH. simpl. lia.
Qed.

Lemma string_length_of_list (l : list ascii) :
  String.length (string_of_list_ascii l) = List.length l.
Proof. induction l as [|c l IH]; simpl; congruence. Qed.

Lemma string_length_list (s : string) :
  List.length (list_ascii_of_string s) = String.length s.
Proof. induction s as [|c s IH]; simpl; congruence. Qed.

(** Decoding the encoded form of a 12-byte identifier gives it back. *)
Lemma new_str (o : t) : List.length o = 12%nat -> new (str o) = Some o.
Proof.
  intro H. unfold new, str.
  rewrite string_length_of_list, length_hexlify, H.
  cbn [Nat.mul Nat.add Nat.eqb].
  rewrite list_ascii_of_string_of_list_ascii. apply fromhex_hexlify.
Qed.

Lemma str_inj (a b : t) : str a = str b -> a = b.
Proof.
  unfold str. intro H.
  apply (f_equal list_ascii_of_string) in H.
  rewrite !list_ascii_of_string_of_list_ascii in H.
  apply (f_equal fromhex) in H. rewrite !fromhex_hexlify in H.
  congruence.
Qed.

Lemma hexdigit_is_lower (c : ascii) : In c hexdigits -> is_lower_hex c = true.
Proof. intro H; simpl in H; split_in H; reflexivity. Qed.

Lemma hexlify_lower (bs : list byte) : forallb is_lower_hex (hexlify bs) = true.
Proof.
induction bs as [|b bs IH]; [reflexivity|].
destruct (hex_of_byte_inv b) as [c [d [E [Hc [Hd _]]]]].
unfold hexlify in *. cbn [flat_map]. rewrite E. cbn [app forallb].
rewrite (@hexdigit_is_lower _ Hc), (@hexdigit_is_lower _ Hd), IH. reflexivity.
Qed.

(** The encoded form of a 12-byte identifier is in the spec's format. *)
Lemma str_lower_hex24 (o : t) : List.length o = 12%nat -> lower_hex24 (str o) = true.
Proof.
intro H. unfold lower_hex24, str.
rewrite string_length_of_list, length_hexlify, H.
rewrite list_ascii_of_string_of_list_ascii. apply hexlify_lower.
Qed.

Lemma is_valid_new (s : string) :
  is_valid s = match new s with Some _ => true | None => false end.
Proof. destruct s; reflexivity. Qed.

End ObjectIdFacts.

Lemma to_obj_id_lower (s : string) :
  lower_hex24 s = true -> exists o, to_obj_id s = Ok o /\ ObjectId.str o = s.
Proof.
  unfold lower_hex24, to_obj_id, ObjectId.new. intro H.
  apply andb_true_iff in H as [Hlen Hlow]. rewrite Hlen.
  assert (Nat.even (List.length (list_ascii_of_string s)) = true) as Hev.
  { rewrite ObjectIdFacts.string_length_list.
    apply Nat.eqb_eq in Hlen. rewrite Hlen. reflexivity. }
  destruct (@ObjectIdFacts.fromhex_lower _ Hlow Hev) as [bs [Hbs Hout]].
  rewrite Hbs. exists bs; split; [reflexivity|].
  unfold ObjectId.str. rewrite Hout. apply string_of_list_ascii_of_string.
Qed.

Lemma to_obj_id_hex (s : string) :
  String.length s = 24%nat ->
  forallb ObjectId.is_hex (list_ascii_of_string s) = true ->
  exists o, to_obj_id s = Ok o
            /\ ObjectId.str o
               = string_of_list_ascii (map ascii_lower (list_ascii_of_string s)).
Proof.
  unfold to_obj_id, ObjectId.new. intros Hlen Hhex.
  rewrite Hlen. cbn [Nat.eqb].
  assert (Nat.even (List.length (list_ascii_of_string s)) = true) as Hev.
  { rewrite ObjectIdFacts.string_length_list, Hlen. reflexivity. }
  destruct (@ObjectIdFacts.fromhex_any _ Hhex Hev) as [bs [Hbs Hout]].
  rewrite Hbs. exists bs; split; [reflexivity|].
  unfold ObjectId.str. rewrite Hout. reflexivity.
Qed.

Lemma to_obj_id_bad_length (s : string) :
  String.length s <> 24%nat -> to_obj_id s = Raise (HTTPException 400 "Invalid ID").
Proof.
  unfold to_obj_id, ObjectId.new. intro H.
  apply Nat.eqb_neq in H. rewrite H. reflexivity.
Qed.

Lemma to_obj_id_bad_char (s : string) (c : ascii) :
  In c (list_ascii_of_string s) ->
  ObjectId.is_hex c = false -> ObjectId.is_space c = false ->
  to_obj_id s = Raise (HTTPException 400 "Invalid ID").
Proof.
  unfold to_obj_id, ObjectId.new. intros Hin Hhex Hsp.
  destruct (String.length s =? 24)%nat; [|reflexivity].
  destruct (ObjectId.fromhex (list_ascii_of_string s)) as [bs|] eqn:E; [|reflexivity].
  destruct (@ObjectIdFacts.fromhex_chars _ _ _ (le_n _) E c Hin); congruence.
Qed.

(** C2, as stated, fails: a 24-character upper-case hexadecimal string is
    not a lower-case one, yet it decodes. *)
Lemma to_obj_id_accepts_upper_case :
  ~ (forall s : string,
        (exists e, to_obj_id s = Raise e) <-> lower_hex24 s = false).
Proof.
  intro H.
  destruct (proj2 (H "AAAAAAAAAAAAAAAAAAAAAAAA") eq_refl) as [e He].
  vm_compute in He. discriminate He.
Qed.

(** C2 (amended): [to_obj_id] either decodes or raises the 400 client error
    and nothing else; it raises it whenever the string is not 24 characters
    long or holds a character that is neither a hexadecimal digit nor ASCII
    white space; it decodes every 24-character hexadecimal string, upper-case
    digits included, and encoding the result gives the lower-case form of the
    string; so on a 24-character lower-case hexadecimal string decoding
    followed by encoding is the identity. *)
Theorem to_obj_id_decodes_hex_of_either_case :
  (forall s e, to_obj_id s = Raise e -> e = HTTPException 400 "Invalid ID")
  /\ (forall s, String.length s <> 24%nat ->
                to_obj_id s = Raise (HTTPException 400 "Invalid ID"))
  /\ (forall s c, In c (list_ascii_of_string s) ->
                  ObjectId.is_hex c = false -> ObjectId.is_space c = false ->
                  to_obj_id s = Raise (HTTPException 400 "Invalid ID"))
  /\ (forall s, String.length s = 24%nat ->
                forallb ObjectId.is_hex (list_ascii_of_string s) = true ->
                exists o, to_obj_id s = Ok o
                          /\ ObjectId.str o
                             = string_of_list_ascii
                                 (map ascii_lower (list_ascii_of_string s)))
  /\ (forall s, lower_hex24 s = true ->
                exists o, to_obj_id s = Ok o /\ ObjectId.str o = s).
Proof.
  split; [|split; [|split; [|split]]].
  - intros s e. unfold to_obj_id.
    destruct (ObjectId.new s); intro H; [discriminate H | congruence].
  - exact to_obj_id_bad_length.
  - exact to_obj_id_bad_char.
  - exact to_obj_id_hex.
  - exact to_obj_id_lower.
Qed.

(** ** The book-listing filter *)

Lemma list_books_filter (db : database) (q tag category genre : option string)
      (limit : Z) (cf : list (string * ccond)) :
  1 <= limit <= 100 ->
  compile_filter (filter_dict q tag category genre) = Some cf ->
  list_books db q tag category genre (Some limit)
  = Ok (map encode_id
            (firstn (Z.to_nat limit)
                    (List.filter (fun d => filter_matches cf (doc_fields d)) (book db)))).
Proof.
  intros [Hlo Hhi] E. unfold list_books, Query, get_documents, find.
  apply Z.leb_le in Hlo, Hhi. rewrite Hlo, Hhi, E. reflexivity.
Qed.

(** C9: an empty string given for [q], [tag], [category] or [genre] adds no
    constraint: [list_books] answers as if the parameter were absent. *)
Theorem list_books_empty_string_is_absent :
  forall (db : database) (q tag category genre : option string) (limit : option Z),
    list_books db (Some "") tag category genre limit
    = list_books db None tag category genre limit
    /\ list_books db q (Some "") category genre limit
       = list_books db q None category genre limit
    /\ list_books db q tag (Some "") genre limit
       = list_books db q tag None genre limit
    /\ list_books db q tag category (Some "") limit
       = list_books db q tag category None limit.
Proof.
  intros. repeat split; reflexivity.
Qed.

(** C10, as stated, fails twice: at the empty tag [discover_by_tag] filters
    on the tag [""] while [list_books] drops the parameter and lists every
    book; and at a limit above 100 [list_books] is refused while
    [discover_by_tag] answers. *)
Lemma discover_by_tag_differs_from_list_books :
  discover_by_tag Sample.db "" (Some 24)
  <> list_books Sample.db None (Some "") None None (Some 24)
  /\ discover_by_tag Sample.db "fantasy" (Some 500)
     <> list_books Sample.db None (Some "fantasy") None None (Some 500).
Proof.
  split; vm_compute; intro H; discriminate H.
Qed.

(** C10 (amended): for every non-empty tag [t], every limit from 1 to 100
    and every database, [discover_by_tag] returns what [list_books] returns
    when it is given only [tag = t] and the same limit; both pass the filter
    [{tags: t}] to the store. *)
Theorem discover_by_tag_is_list_books_by_tag :
  forall (db : database) (t : string) (limit : Z),
    t <> "" -> 1 <= limit <= 100 ->
    filter_dict None (Some t) None None = [("tags", CEq (BStr t))]
    /\ discover_by_tag db t (Some limit)
       = list_books db None (Some t) None None (Some limit).
Proof.
  intros db t limit Ht [Hlo Hhi].
  destruct t as [|c t]; [contradiction Ht; reflexivity|].
  split; [reflexivity|].
  unfold list_books, discover_by_tag, Query, default.
  apply Z.leb_le in Hlo, Hhi. rewrite Hlo, Hhi. reflexivity.
Qed.

Lemma discover_by_tag_is_list_books_by_tag_witness :
  "fantasy" <> "" /\ 1 <= 24 <= 100
  /\ discover_by_tag Sample.db "fantasy" (Some 24)
     = list_books Sample.db None (Some "fantasy") None None (Some 24).
Proof.
  assert ("fantasy" <> "") as Hne by discriminate.
  assert (1 <= 24 <= 100) as Hr by lia.
  split; [exact Hne | split; [exact Hr|]].
  exact (proj2 (discover_by_tag_is_list_books_by_tag Sample.db Hne Hr)).
Defined.

Lemma tag_filter (t : string) (d : doc Book.t) :
  t <> "" ->
  book_filter_matches None (Some t) None None d
  = Some (existsb (String.eqb t) (Book.tags (body d))).
Proof.
  intro Ht. destruct t as [|c t]; [contradiction Ht; reflexivity|].
  unfold book_filter_matches. cbn. rewrite andb_true_r. reflexivity.
Qed.

Lemma existsb_eqb_In (t : string) (l : list string) :
  existsb (String.eqb t) l = true <-> In t l.
Proof.
  rewrite existsb_exists. split.
  - intros [x [Hx E]]. apply String.eqb_eq in E. subst. exact Hx.
  - intro H. exists t. split; [exact H | apply String.eqb_refl].
Qed.

Lemma filters_are_conjoined (q tag category genre : option string) (d : doc Book.t) :
  book_filter_matches q tag category genre d
  = opt_and (book_filter_matches q None None None d)
      (opt_and (book_filter_matches None tag None None d)
         (opt_and (book_filter_matches None None category None d)
                  (book_filter_matches None None None genre d))).
Proof.
  unfold book_filter_matches, filter_dict.
  destruct q as [[|a q]|], tag as [[|b tag]|], category as [[|c category]|],
    genre as [[|e genre]|];
    cbn -[Regex.compile Regex.search list_ascii_of_string];
    try destruct (Regex.compile _);
    cbn -[Regex.compile Regex.search list_ascii_of_string];
    rewrite ?andb_true_r; reflexivity.
Qed.

(** C7, as stated, fails at the empty tag: the parameter is dropped and the
    filter matches a document whose tags do not contain [""]. *)
Lemma empty_tag_matches_every_book :
  ~ (forall (t : string) (d : doc Book.t),
        book_filter_matches None (Some t) None None d = Some true
        <-> In t (Book.tags (body d))).
Proof.
  intro H.
  destruct (proj1 (H "" Sample.bookA) eq_refl) as [E | []].
  discriminate E.
Qed.

(** C7 (amended): for every non-empty tag [t], the book-listing filter with
    [tag = t] matches a document exactly when [t] is an element of its tags
    (compared exactly, case included), so a tag of which [t] is only a
    substring does not count; with no parameter the filter matches every
    document; with several parameters the constraints are conjoined. *)
Theorem tag_filter_matches_exact_elements :
  (forall (t : string) (d : doc Book.t),
      t <> "" ->
      (exists b, book_filter_matches None (Some t) None None d = Some b)
      /\ (book_filter_matches None (Some t) None None d = Some true
          <-> In t (Book.tags (body d))))
  /\ (forall d : doc Book.t, book_filter_matches None None None None d = Some true)
  /\ (forall (q tag category genre : option string) (d : doc Book.t),
         book_filter_matches q tag category genre d
         = opt_and (book_filter_matches q None None None d)
             (opt_and (book_filter_matches None tag None None d)
                (opt_and (book_filter_matches None None category None d)
                         (book_filter_matches None None None genre d)))).
Proof.
  split; [|split].
  - intros t d Ht. rewrite (tag_filter d Ht). split.
    + eexists; reflexivity.
    + rewrite <- existsb_eqb_In. split; intro H; congruence.
  - reflexivity.
  - exact filters_are_conjoined.
Qed.

Lemma tag_filter_matches_exact_elements_witness :
  "fantasy" <> ""
  /\ book_filter_matches None (Some "fantasy") None None Sample.bookA = Some true
  /\ book_filter_matches None (Some "fantasy") None None Sample.bookB <> Some true.
Proof.
  assert ("fantasy" <> "") as Hne by discriminate.
  destruct (proj1 tag_filter_matches_exact_elements "fantasy" Sample.bookA Hne)
    as [_ HA].
  destruct (proj1 tag_filter_matches_exact_elements "fantasy" Sample.bookB Hne)
    as [_ HB].
  split; [exact Hne | split].
  - apply HA. simpl. left. reflexivity.
  - intro H. apply HB in H. simpl in H. destruct H as [H | []]. discriminate H.
Defined.

(** ** The text query *)

Lemma not_meta_not_dot (c : ascii) :
  Regex.is_meta c = false -> Ascii.eqb c "."%char = false.
Proof.
  destruct c as [[] [] [] [] [] [] [] []]; vm_compute; intro E;
    try discriminate E; reflexivity.
Qed.

Lemma compile_plain (q : list ascii) :
  forallb (fun c => negb (Regex.is_meta c)) q = true ->
  Regex.compile q = Some (map Regex.Lit q).
Proof.
  induction q as [|c q IH]; [reflexivity|]. simpl. intro H.
  apply andb_true_iff in H as [Hc Hq]. apply negb_true_iff in Hc.
  rewrite (not_meta_not_dot _ Hc), Hc, (IH Hq). reflexivity.
Qed.

Lemma match_here_lits (q s : list ascii) :
  Regex.match_here true (map Regex.Lit q) s = true
  <-> exists post, map ascii_lower s = map ascii_lower q ++ post.
Proof.
  revert s. induction q as [|a q IH]; intro s.
  - simpl. split; [intros _; eexists; reflexivity | reflexivity].
  - destruct s as [|c s]; simpl.
    + split; [discriminate | intros [post E]; discriminate E].
    + rewrite andb_true_iff, IH, Ascii.eqb_eq. split.
      * intros [E [post Hs]]. exists post. rewrite E, Hs. reflexivity.
      * intros [post E]. injection E as E1 E2. split; [congruence | eauto].
Qed.

Lemma search_lits (q s : list ascii) :
  Regex.search true (map Regex.Lit q) s = true
  <-> exists pre post, map ascii_lower s = pre ++ map ascii_lower q ++ post.
Proof.
  induction s as [|c s IH].
  - simpl. rewrite orb_false_r, match_here_lits. split.
    + intros [post E]. exists [], post. exact E.
    + intros [pre [post E]]. destruct pre; [eauto | discriminate E].
  - cbn [Regex.search]. rewrite orb_true_iff, match_here_lits, IH. split.
    + intros [[post E] | [pre [post E]]].
      * exists [], post. exact E.
      * exists (ascii_lower c :: pre), post. simpl. rewrite E. reflexivity.
    + intros [pre [post E]]. destruct pre as [|x pre].
      * left. exists post. exact E.
      * right. simpl in E. injection E as _ E. eauto.
Qed.

Lemma text_filter (q : string) (d : doc Book.t) :
  q <> "" -> plain q = true ->
  book_filter_matches (Some q) None None None d
  = Some (Regex.search true (map Regex.Lit (list_ascii_of_string q))
                       (list_ascii_of_string (Book.title (body d)))).
Proof.
  intros Hq Hplain. destruct q as [|c q]; [contradiction Hq; reflexivity|].
  unfold book_filter_matches, filter_dict.
  cbn -[Regex.compile Regex.search list_ascii_of_string].
  rewrite (compile_plain _ Hplain).
  cbn -[Regex.search list_ascii_of_string]. rewrite andb_true_r. reflexivity.
Qed.




(** ** Chapter numbering *)

Lemma oid_eqb_eq (a b : ObjectId.t) : oid_eqb a b = true <-> a = b.
Proof.
  revert b. induction a as [|x a IH]; destruct b as [|y b]; simpl;
    try (split; [discriminate | discriminate]); [tauto|].
  rewrite andb_true_iff, IH. split.
  - intros [E ->]. apply Byte.byte_dec_bl in E. congruence.
  - intro E. injection E as -> ->. split; [apply Byte.byte_dec_lb|]; reflexivity.
Qed.

Lemma ident_eqb_eq (a b : ident) : ident_eqb a b = true <-> a = b.
Proof.
  destruct a as [a|a], b as [b|b]; unfold ident_eqb; simpl.
  - rewrite oid_eqb_eq. split; congruence.
  - split; discriminate.
  - split; discriminate.
  - rewrite String.eqb_eq. split; congruence.
Qed.

Lemma count_chapters (db : database) (b : string) :
  count_documents (chapter db) [("book_id", CEq (BStr b))]
  = Ok (Z.of_nat (chapters_of db b)).
Proof.
  unfold count_documents, find, chapters_of. cbn [compile_filter compile_cond bind].
  do 3 f_equal. apply filter_ext. intro d.
  unfold ident_eqb. destruct d as [i [bid t c n] ca ua].
  destruct bid as [o|s]; cbn; [reflexivity|].
  unfold eq_matches. cbn [bson_eqb].
  rewrite orb_false_r, andb_true_r. apply String.eqb_sym.
Qed.



(** ** The library *)

Lemma find_pair (db : database) (item : LibraryItem.t) :
  find (libraryitem db)
       [("user_id", CEq (BStr (LibraryItem.user_id item)));
        ("book_id", CEq (BStr (LibraryItem.book_id item)))]
  = Ok (List.filter
          (fun d => String.eqb (LibraryItem.user_id (body d)) (LibraryItem.user_id item)
                    && String.eqb (LibraryItem.book_id (body d)) (LibraryItem.book_id item))
          (libraryitem db)).
Proof.
  unfold find. cbn [compile_filter compile_cond]. f_equal.
  apply filter_ext. intro d. destruct d as [i [u b] ca ua]. cbn.
  unfold eq_matches. cbn [bson_eqb].
  rewrite !orb_false_r, andb_true_r.
  rewrite (String.eqb_sym u), (String.eqb_sym b). reflexivity.
Qed.



(** *** Reading the library back *)

Lemma dict_get_set (V : Type) (m : list (string * V)) (k k' : string) (v : V) :
  dict_get (dict_set m k v) k' = if String.eqb k k' then Some v else dict_get m k'.
Proof.
  induction m as [|[k0 v0] m IH]; simpl; [reflexivity|].
  destruct (String.eqb k0 k) eqn:E0; simpl.
  - apply String.eqb_eq in E0. subst k0.
    destruct (String.eqb k k'); reflexivity.
  - rewrite IH. destruct (String.eqb k0 k') eqn:E1; [|reflexivity].
    apply String.eqb_eq in E1. subst k'.
    rewrite String.eqb_sym, E0. reflexivity.
Qed.

Lemma combine_seq_snoc (A : Type) (l : list A) (x : A) : forall start : nat,
  combine (seq start (List.length (l ++ [x]))) (l ++ [x])
  = combine (seq start (List.length l)) l ++ [((start + List.length l)%nat, x)].
Proof.
  induction l as [|y l IH]; intro start; simpl.
  - rewrite Nat.add_0_r. reflexivity.
  - rewrite IH. rewrite Nat.add_succ_r. reflexivity.
Qed.

Lemma book_map_snoc (l : list (doc Book.t)) (x : doc Book.t) :
  book_map_of (l ++ [x]) = dict_set (book_map_of l) (py_str (_id x)) (List.length l).
Proof.
  unfold book_map_of, enumerate. rewrite combine_seq_snoc, fold_left_app. reflexivity.
Qed.

Lemma book_map_bound (l : list (doc Book.t)) : forall (k : string) (i : nat),
  dict_get (book_map_of l) k = Some i -> (i < List.length l)%nat.
Proof.
  induction l as [|x l IH] using rev_ind; intros k i H.
  - discriminate H.
  - rewrite book_map_snoc, dict_get_set in H. rewrite length_app. simpl.
    destruct (String.eqb (py_str (_id x)) k).
    + injection H as <-. lia.
    + apply IH in H. lia.
Qed.

Lemma filter_none (A : Type) (p : A -> bool) (l : list A) :
  (forall x, In x l -> p x = false) -> List.filter p l = [].
Proof.
  induction l as [|y l IH]; intro H; simpl; [reflexivity|].
  rewrite (H y (or_introl eq_refl)). apply IH. intros x Hx. apply H. right. exact Hx.
Qed.

(** What the result comprehension picks for one [book_id], seen through the
    map: the fetched book with that encoded identifier, already rewritten. *)
Lemma pick_by_encoded_id (books : list (doc Book.t)) (bid : string) :
  NoDup (map (fun d => py_str (_id d)) books) ->
  match dict_get (book_map_of books) bid with
  | Some i =>
      match nth_error (map encode_id books) i with
      | Some b => [b]
      | None => []
      end
  | None => []
  end
  = map encode_id (List.filter (fun d => String.eqb (py_str (_id d)) bid) books).
Proof.
  induction books as [|x l IH] using rev_ind; intro Hnd; [reflexivity|].
  rewrite map_app in Hnd. simpl in Hnd.
  pose proof (NoDup_remove_1 _ _ _ Hnd) as Hl.
  pose proof (NoDup_remove_2 _ _ _ Hnd) as Hx.
  rewrite app_nil_r in Hl, Hx.
  rewrite book_map_snoc, dict_get_set, filter_app, !map_app. simpl.
  destruct (String.eqb (py_str (_id x)) bid) eqn:E.
  - rewrite nth_error_app2 by (rewrite length_map; lia).
    rewrite length_map, Nat.sub_diag. simpl.
    rewrite filter_none; [reflexivity|].
    intros d Hd. apply String.eqb_neq. intro Ed.
    apply String.eqb_eq in E. apply Hx. rewrite E, <- Ed.
    apply (in_map (fun d => py_str (_id d))). exact Hd.
  - rewrite app_nil_r, <- (IH Hl).
    destruct (dict_get (book_map_of l) bid) as [i|] eqn:Ei; [|reflexivity].
    apply book_map_bound in Ei.
    rewrite nth_error_app1 by (rewrite length_map; exact Ei). reflexivity.
Qed.

Lemma find_saved_by (db : database) (user_id : string) :
  find (libraryitem db) [("user_id", CEq (BStr user_id))] = Ok (saved_by db user_id).
Proof.
  unfold find, saved_by. cbn [compile_filter compile_cond]. f_equal.
  apply filter_ext. intro d. destruct d as [i [u b] ca ua]. cbn.
  unfold eq_matches. cbn [bson_eqb].
  rewrite orb_false_r, andb_true_r. apply String.eqb_sym.
Qed.

Lemma valid_object_ids_decoded (book_ids : list string) :
  valid_object_ids book_ids = Ok (decoded book_ids).
Proof.
  induction book_ids as [|b l IH]; [reflexivity|].
  simpl. rewrite ObjectIdFacts.is_valid_new.
  destruct (ObjectId.new b) as [o|]; [|exact IH].
  rewrite IH. reflexivity.
Qed.

Lemma find_in_oids (db : database) (oids : list ObjectId.t) :
  find (book db) [("_id", CIn (map BOid oids))] = Ok (fetched db oids).
Proof.
  unfold find, fetched. cbn [compile_filter compile_cond]. f_equal.
  apply filter_ext. intro d. destruct d as [i b ca ua].
  cbn -[existsb]. rewrite andb_true_r.
  induction oids as [|x oids IH]; [destruct i; reflexivity|].
  cbn [map existsb]. rewrite IH.
  destruct i as [o|s]; unfold eq_matches; cbn [ident_bson bson_eqb];
    rewrite orb_false_r; reflexivity.
Qed.

Lemma fetched_In (db : database) (oids : list ObjectId.t) (d : doc Book.t) :
  In d (fetched db oids)
  <-> In d (book db) /\ exists o, _id d = Oid o /\ In o oids.
Proof.
  unfold fetched. rewrite filter_In. split; intros [Hd H]; split; try exact Hd.
  - destruct (_id d) as [o|s]; [|discriminate H].
    apply existsb_exists in H as [x [Hx E]]. apply oid_eqb_eq in E. subst x.
    exists o. split; [reflexivity | exact Hx].
  - destruct H as [o [E Ho]]. rewrite E. apply existsb_exists.
    exists o. split; [exact Ho | apply oid_eqb_eq; reflexivity].
Qed.

Lemma decoded_In (book_ids : list string) (o : ObjectId.t) :
  In o (decoded book_ids) <-> exists b, In b book_ids /\ ObjectId.new b = Some o.
Proof.
  unfold decoded. rewrite in_flat_map. split; intros [b [Hb H]]; exists b; split;
    try exact Hb.
  - destruct (ObjectId.new b) as [o'|]; [|contradiction H].
    destruct H as [-> | []]. reflexivity.
  - rewrite H. left. reflexivity.
Qed.

Lemma NoDup_map_filter (A B : Type) (f : A -> B) (p : A -> bool) (l : list A) :
  NoDup (map f l) -> NoDup (map f (List.filter p l)).
Proof.
  induction l as [|x l IH]; simpl; intro H; [constructor|].
  apply NoDup_cons_iff in H as [Hx Hl].
  destruct (p x); [|exact (IH Hl)].
  simpl. constructor; [|exact (IH Hl)].
  intro Hin. apply Hx. apply in_map_iff in Hin as [y [E Hy]].
  apply filter_In in Hy as [Hy _]. rewrite <- E. apply in_map. exact Hy.
Qed.

Lemma NoDup_map_compose (A B C : Type) (f : A -> B) (g : B -> C) (l : list A) :
  NoDup (map f l) ->
  (forall x y, In x l -> In y l -> g (f x) = g (f y) -> f x = f y) ->
  NoDup (map (fun x => g (f x)) l).
Proof.
  induction l as [|x l IH]; simpl; intros H Hinj; [constructor|].
  apply NoDup_cons_iff in H as [Hx Hl].
  constructor.
  - intro Hin. apply Hx. apply in_map_iff in Hin as [y [E Hy]].
    rewrite <- (Hinj y x); [apply in_map; exact Hy | right; exact Hy
                            | left; reflexivity | exact E].
  - apply IH; [exact Hl|]. intros a b Ha Hb. apply Hinj; right; assumption.
Qed.

(** The encoded identifiers of the fetched books are pairwise distinct. *)
Lemma fetched_keys_NoDup (db : database) (oids : list ObjectId.t) :
  NoDup (map (fun d => _id d) (book db)) ->
  NoDup (map (fun d => py_str (_id d)) (fetched db oids)).
Proof.
  intro H.
  apply (NoDup_map_compose (fun d : doc Book.t => _id d) py_str).
  - unfold fetched. apply NoDup_map_filter. exact H.
  - intros x y Hx Hy E.
    apply fetched_In in Hx as [_ [ox [Ex _]]].
    apply fetched_In in Hy as [_ [oy [Ey _]]].
    rewrite Ex, Ey in *. simpl in E. apply ObjectIdFacts.str_inj in E. congruence.
Qed.

Lemma filter_filter (A : Type) (p q : A -> bool) (l : list A) :
  List.filter q (List.filter p l) = List.filter (fun x => p x && q x) l.
Proof.
  induction l as [|x l IH]; simpl; [reflexivity|].
  destruct (p x); simpl; [destruct (q x)|]; rewrite IH; reflexivity.
Qed.

(** Among the fetched books, the one picked for a saved [book_id] is the one
    the [book_id] refers to. *)
Lemma fetched_referenced (db : database) (book_ids : list string) (bid : string) :
  well_formed_ids (book db) -> In bid book_ids ->
  List.filter (fun d => String.eqb (py_str (_id d)) bid) (fetched db (decoded book_ids))
  = referenced db bid.
Proof.
  intros [_ Hlen] Hbid. unfold fetched, referenced.
  rewrite filter_filter. apply filter_ext_in. intros d Hd.
  rewrite Forall_forall in Hlen. specialize (Hlen d Hd).
  destruct (_id d) as [o|s]; [|reflexivity]. simpl.
  destruct (String.eqb (ObjectId.str o) bid) eqn:E;
    [rewrite andb_true_r | apply andb_false_r].
  apply String.eqb_eq in E.
  apply existsb_exists. exists o. split; [|apply oid_eqb_eq; reflexivity].
  apply decoded_In. exists bid. split; [exact Hbid|].
  rewrite <- E. apply ObjectIdFacts.new_str. exact Hlen.
Qed.

Lemma flat_map_map (A B C : Type) (g : A -> B) (f : B -> list C) (l : list A) :
  flat_map f (map g l) = flat_map (fun x => f (g x)) l.
Proof. induction l as [|x l IH]; simpl; congruence. Qed.

Lemma map_flat_map (A B C : Type) (f : A -> list B) (h : B -> C) (l : list A) :
  map h (flat_map f l) = flat_map (fun x => map h (f x)) l.
Proof.
  induction l as [|x l IH]; simpl; [reflexivity|].
  rewrite map_app, IH. reflexivity.
Qed.

Lemma flat_map_ext_In (A B : Type) (f g : A -> list B) (l : list A) :
  (forall x, In x l -> f x = g x) -> flat_map f l = flat_map g l.
Proof.
  induction l as [|x l IH]; simpl; intro H; [reflexivity|].
  rewrite (H x (or_introl eq_refl)), IH; [reflexivity|].
  intros y Hy. apply H. right. exact Hy.
Qed.

Lemma get_library_eq (db : database) (user_id : string) :
  well_formed_ids (book db) ->
  get_library db user_id
  = Ok (map encode_id
            (flat_map (fun it => referenced db (LibraryItem.book_id (body it)))
                      (saved_by db user_id))).
Proof.
  intro Hwf. unfold get_library.
  rewrite find_saved_by. cbn [bind].
  rewrite valid_object_ids_decoded. cbn [bind].
  rewrite find_in_oids. cbn [bind]. f_equal.
  rewrite map_flat_map, flat_map_map.
  apply flat_map_ext_In. intros it Hit.
  rewrite pick_by_encoded_id by (apply fetched_keys_NoDup, Hwf).
  f_equal. apply fetched_referenced; [exact Hwf|].
  apply (in_map (fun it => LibraryItem.book_id (body it))). exact Hit.
Qed.







(** ** Trending *)

(** C1 fails on the code: in [Sample.db] the books [bookA], [bookB], [bookC]
    have 5, 0 and 3 chapters, stored with the encoded [book_id] as
    [create_chapter] stores them.  The join compares the native ["_id"] with
    that string, attaches no chapter to any book and counts 0 three times;
    the ranking is then by [updated_at] alone and, with limit 2, returns
    [bookB] and [bookC] instead of [bookA] and [bookC]. *)
Theorem discover_trending_counts_no_chapters :
  map (chapters_of Sample.db) [Sample.idA; Sample.idB; Sample.idC] = [5; 0; 3]%nat
  /\ discover_trending Sample.db (Some 2)
     = Ok [Doc (Str Sample.idB) (Trending.mk (body Sample.bookB) [] 0) None (Some 3);
           Doc (Str Sample.idC) (Trending.mk (body Sample.bookC) [] 0) None (Some 2)].
Proof.
  split; vm_compute; reflexivity.
Qed.

(** ** Identifiers in returned documents *)

Lemma bind_Ok (A B : Type) (r : result A) (k : A -> result B) (b : B) :
  bind r k = Ok b -> exists a, r = Ok a /\ k a = Ok b.
Proof. destruct r as [a|e]; simpl; intro H; [eauto | discriminate H]. Qed.

Ltac inv_bind H :=
  let a := fresh "x" in
  let Ha := fresh "Hx" in
  apply bind_Ok in H as [a [Ha H]].

Ltac inv_ok H := injection H as H; subst.

Lemma In_firstn (A : Type) (n : nat) : forall (l : list A) (x : A),
  In x (firstn n l) -> In x l.
Proof.
  induction n as [|n IH]; intros [|y l] x H; simpl in *; try contradiction.
  destruct H as [H | H]; [left; exact H | right; apply IH; exact H].
Qed.

Lemma In_insert_by (A : Type) (le : A -> A -> bool) (y : A) (l : list A) (x : A) :
  In x (insert_by le y l) -> x = y \/ In x l.
Proof.
  induction l as [|z l IH]; simpl.
  - intros [H | []]. left. congruence.
  - destruct (le y z); simpl; intros [H | H]; auto.
    destruct (IH H); auto.
Qed.

Lemma In_sort_by (A : Type) (le : A -> A -> bool) (l : list A) (x : A) :
  In x (sort_by le l) -> In x l.
Proof.
  induction l as [|y l IH]; simpl; [tauto|].
  intro H. apply In_insert_by in H as [H | H]; [left; congruence | right; auto].
Qed.

Section Found.

Context {A : Type} `{Fields A}.

Lemma find_In (coll : list (doc A)) (f : filter) (l : list (doc A)) (d : doc A) :
  find coll f = Ok l -> In d l -> In d coll.
Proof.
  unfold find. destruct (compile_filter f); intro E; [|discriminate E].
  inv_ok E. intro Hd. apply filter_In in Hd. tauto.
Qed.



End Found.









Lemma get_library_encoded db user_id l :
  get_library db user_id = Ok l -> encoded_from (book db) l.
Proof.
  unfold get_library. intro E. inv_bind E. inv_bind E. inv_bind E. inv_ok E.
  intros d Hd. apply in_flat_map in Hd as [bid [_ Hd]].
  destruct (dict_get (book_map_of x1) bid) as [i|]; [|contradiction Hd].
  destruct (nth_error (map encode_id x1) i) as [b|] eqn:Eb; [|contradiction Hd].
  destruct Hd as [<- | []].
  apply nth_error_In in Eb. apply in_map_iff in Eb as [d0 [E Hd0]].
  exists d0. split; [eapply find_In; eassumption | congruence].
Qed.

Lemma discover_trending_encoded db limit l :
  discover_trending db limit = Ok l ->
  forall d, In d l -> exists d0, In d0 (book db) /\ d = encode_id (joined db d0).
Proof.
  unfold discover_trending, aggregate_trending. intro E. inv_bind E. inv_ok E.
  destruct (default 12 limit <=? 0); [discriminate Hx|]. inv_ok Hx.
  intros d Hd. apply in_map_iff in Hd as [t [<- Ht]].
  apply In_firstn, In_sort_by in Ht. rewrite map_map in Ht.
  apply in_map_iff in Ht as [d0 [<- Hd0]]. exists d0. split; [exact Hd0 | reflexivity].
Qed.

(** When references are strings and books carry native identifiers, the
    join attaches no chapter. *)
Lemma joined_nothing (db : database) (d0 : doc Book.t) :
  Forall (fun c => native (ChapterDoc.book_id (body c)) = false) (chapter db) ->
  native (_id d0) = true ->
  Trending.chapters (body (joined db d0)) = [].
Proof.
  intros Hc Hb. unfold joined, add_fields_stage, lookup_stage. cbn.
  apply filter_none. intros c Hin.
  rewrite Forall_forall in Hc. specialize (Hc c Hin).
  destruct (_id d0); [|discriminate Hb].
  destruct (ChapterDoc.book_id (body c)); [discriminate Hc | reflexivity].
Qed.








Lemma to_obj_id_decodes_hex_of_either_case_witness :
  exists o, to_obj_id "0123456789abcdef01234567" = Ok o
            /\ ObjectId.str o = "0123456789abcdef01234567".
Proof.
  exact (proj2 (proj2 (proj2 (proj2 to_obj_id_decodes_hex_of_either_case)))
               "0123456789abcdef01234567" eq_refl).
Defined.

(** * Further properties *)

(** ** Identifiers *)

Lemma digit_value_lower (c : ascii) :
  ObjectId.digit_value (ascii_lower c) = ObjectId.digit_value c
  /\ ObjectId.is_space (ascii_lower c) = ObjectId.is_space c.
Proof.
  destruct c as [[] [] [] [] [] [] [] []]; split; reflexivity.
Qed.

Lemma fromhex_lower_case (n : nat) : forall l : list ascii,
  (List.length l <= n)%nat ->
  ObjectId.fromhex (map ascii_lower l) = ObjectId.fromhex l.
Proof.
  induction n as [|n IH]; intros l Hn.
  - destruct l; [reflexivity | simpl in Hn; lia].
  - destruct l as [|c l]; [reflexivity|].
    simpl in Hn. cbn [map ObjectId.fromhex].
    destruct (digit_value_lower c) as [Hc Hs]. rewrite Hs.
    destruct (ObjectId.is_space c); [apply IH; lia|].
    destruct l as [|d l]; [reflexivity|].
    cbn [map]. destruct (digit_value_lower d) as [Hd _].
    unfold ObjectId.is_hex. rewrite Hc, Hd.
    rewrite IH by (simpl in Hn; lia). reflexivity.
Qed.

Lemma new_lower_case (s : string) : ObjectId.new (py_lower s) = ObjectId.new s.
Proof.
  unfold ObjectId.new, py_lower.
  rewrite ObjectIdFacts.string_length_of_list, length_map,
    ObjectIdFacts.string_length_list, list_ascii_of_string_of_list_ascii.
  destruct (String.length s =? 24)%nat; [|reflexivity].
  apply (@fromhex_lower_case _ _ (le_n _)).
Qed.

(** X1: encoding a 12-byte identifier gives 24 lower-case hexadecimal
    characters that [to_obj_id] decodes back to the identifier, and two
    12-byte identifiers with the same encoding are equal. *)
Theorem to_obj_id_decodes_the_encoding :
  forall o : ObjectId.t,
    List.length o = 12%nat ->
    to_obj_id (ObjectId.str o) = Ok o
    /\ lower_hex24 (ObjectId.str o) = true
    /\ (forall o' : ObjectId.t, ObjectId.str o' = ObjectId.str o -> o' = o).
Proof.
  intros o H. split; [|split].
  - unfold to_obj_id. rewrite (@ObjectIdFacts.new_str o H). reflexivity.
  - apply ObjectIdFacts.str_lower_hex24. exact H.
  - intros o' E. apply ObjectIdFacts.str_inj. exact E.
Qed.

Lemma to_obj_id_decodes_the_encoding_witness :
  List.length (Sample.oid x0a) = 12%nat
  /\ to_obj_id (ObjectId.str (Sample.oid x0a)) = Ok (Sample.oid x0a).
Proof.
  split; [reflexivity|].
  exact (proj1 (@to_obj_id_decodes_the_encoding (Sample.oid x0a) eq_refl)).
Defined.

(** X2: [to_obj_id] does not look at the case of the letters: a string and
    its lower-case form decode to the same identifier or are both refused;
    so [get_book] and [get_chapter] answer the same for both spellings. *)
Theorem to_obj_id_ignores_case :
  forall s : string,
    to_obj_id (py_lower s) = to_obj_id s
    /\ (forall db, get_book db (py_lower s) = get_book db s)
    /\ (forall db, get_chapter db (py_lower s) = get_chapter db s).
Proof.
  intro s.
  assert (to_obj_id (py_lower s) = to_obj_id s) as E.
  { unfold to_obj_id. rewrite new_lower_case. reflexivity. }
  split; [exact E | split; intro db].
  - unfold get_book. rewrite E. reflexivity.
  - unfold get_chapter. rewrite E. reflexivity.
Qed.

(** ** Lookups by identifier *)

Lemma oid_eqb_sym (a b : ObjectId.t) : oid_eqb a b = oid_eqb b a.
Proof.
  destruct (oid_eqb a b) eqn:E.
  - apply oid_eqb_eq in E. subst. symmetry. apply oid_eqb_eq. reflexivity.
  - destruct (oid_eqb b a) eqn:E'; [|reflexivity].
    apply oid_eqb_eq in E'. rewrite E' in E.
    rewrite (proj2 (oid_eqb_eq a a) eq_refl) in E. discriminate E.
Qed.

Section ById.

Context {A : Type} `{Fields A}.

Lemma find_one_by_id (coll : list (doc A)) (o : ObjectId.t) :
  find_one coll [("_id", CEq (BOid o))] = Ok (hd_error (with_id coll o)).
Proof.
  unfold find_one, find, with_id. cbn [compile_filter compile_cond bind].
  do 2 f_equal. apply filter_ext. intro d.
  unfold doc_fields, filter_matches, ident_eqb. cbn.
  rewrite andb_true_r. unfold eq_matches.
  destruct (_id d) as [o'|s']; cbn; rewrite ?orb_false_r;
    [apply oid_eqb_sym | reflexivity].
Qed.

Lemma with_id_In (coll : list (doc A)) (o : ObjectId.t) (d : doc A) :
  In d (with_id coll o) <-> In d coll /\ _id d = Oid o.
Proof.
  unfold with_id. rewrite filter_In, ident_eqb_eq. tauto.
Qed.

Lemma with_id_none (coll : list (doc A)) (o : ObjectId.t) :
  (forall d, In d coll -> _id d <> Oid o) -> with_id coll o = [].
Proof.
  intro Hn. apply filter_none. intros d Hd.
  destruct (ident_eqb (_id d) (Oid o)) eqn:E; [|reflexivity].
  apply ident_eqb_eq in E. exfalso. exact (Hn d Hd E).
Qed.

Lemma with_id_unique (coll : list (doc A)) (o : ObjectId.t) (d0 : doc A) :
  NoDup (map (fun d => _id d) coll) -> In d0 coll -> _id d0 = Oid o ->
  with_id coll o = [d0].
Proof.
  induction coll as [|x l IH]; intros Hnd Hin Hid; [contradiction Hin|].
  simpl in Hnd. apply NoDup_cons_iff in Hnd as [Hx Hl].
  unfold with_id in *. cbn [List.filter].
  destruct Hin as [-> | Hin].
  - rewrite (proj2 (ident_eqb_eq _ _) Hid). f_equal.
    apply filter_none. intros d Hd.
    destruct (ident_eqb (_id d) (Oid o)) eqn:E; [|reflexivity].
    apply ident_eqb_eq in E. exfalso. apply Hx. rewrite Hid, <- E.
    apply (in_map (fun d => _id d)). exact Hd.
  - destruct (ident_eqb (_id x) (Oid o)) eqn:E; [|apply IH; assumption].
    apply ident_eqb_eq in E. exfalso. apply Hx. rewrite E, <- Hid.
    apply (in_map (fun d => _id d)). exact Hin.
Qed.

Lemma with_id_snoc (coll : list (doc A)) (o fresh : ObjectId.t) (x : A)
      (c u : option Z) :
  with_id (coll ++ [Doc (Oid fresh) x c u]) o
  = with_id coll o ++ (if oid_eqb fresh o then [Doc (Oid fresh) x c u] else []).
Proof.
  unfold with_id. rewrite filter_app. reflexivity.
Qed.

End ById.

(** X3: [get_book] answers 400 when the string does not decode, whatever the
    database holds; 404 when it decodes and no stored book has that
    identifier; and otherwise, identifiers being distinct, the stored book
    with that identifier, its ["_id"] replaced by the encoded form. *)
Theorem get_book_answers :
  forall (db : database) (book_id : string),
    (ObjectId.new book_id = None ->
     get_book db book_id = Raise (HTTPException 400 "Invalid ID"))
    /\ (forall o, ObjectId.new book_id = Some o ->
                  (forall d, In d (book db) -> _id d <> Oid o) ->
                  get_book db book_id = Raise (HTTPException 404 "Book not found"))
    /\ (forall o d0, ObjectId.new book_id = Some o ->
                     NoDup (map (fun d => _id d) (book db)) ->
                     In d0 (book db) -> _id d0 = Oid o ->
                     get_book db book_id
                     = Ok (Doc (Str (ObjectId.str o)) (body d0)
                               (created_at d0) (updated_at d0))).
Proof.
  intros db book_id. unfold get_book, to_obj_id. split; [|split].
  - intros ->. reflexivity.
  - intros o -> Hn. cbn [bind]. rewrite find_one_by_id, with_id_none by exact Hn.
    reflexivity.
  - intros o d0 -> Hnd Hin Hid. cbn [bind].
    rewrite find_one_by_id, (@with_id_unique _ _ _ _ Hnd Hin Hid). cbn.
    unfold encode_id. rewrite Hid. reflexivity.
Qed.

Lemma get_book_answers_witness :
  get_book Sample.db "0B0B0B0B0B0B0B0B0B0B0B0B"
  = Ok (Doc (Str Sample.idB) (body Sample.bookB) None (Some 3)).
Proof.
  refine (proj2 (proj2 (get_book_answers Sample.db "0B0B0B0B0B0B0B0B0B0B0B0B"))
                (Sample.oid x0b) Sample.bookB eq_refl _ _ eq_refl).
  - simpl. repeat constructor; simpl; intuition discriminate.
  - simpl. auto.
Defined.

(** X4: [get_chapter] answers 400 when the string does not decode, 404 when
    it decodes and no stored chapter has that identifier, and otherwise,
    identifiers being distinct, the stored chapter with that identifier, its
    ["_id"] replaced by the encoded form. *)
Theorem get_chapter_answers :
  forall (db : database) (chapter_id : string),
    (ObjectId.new chapter_id = None ->
     get_chapter db chapter_id = Raise (HTTPException 400 "Invalid ID"))
    /\ (forall o, ObjectId.new chapter_id = Some o ->
                  (forall d, In d (chapter db) -> _id d <> Oid o) ->
                  get_chapter db chapter_id
                  = Raise (HTTPException 404 "Chapter not found"))
    /\ (forall o d0, ObjectId.new chapter_id = Some o ->
                     NoDup (map (fun d => _id d) (chapter db)) ->
                     In d0 (chapter db) -> _id d0 = Oid o ->
                     get_chapter db chapter_id
                     = Ok (Doc (Str (ObjectId.str o)) (body d0)
                               (created_at d0) (updated_at d0))).
Proof.
  intros db chapter_id. unfold get_chapter, to_obj_id. split; [|split].
  - intros ->. reflexivity.
  - intros o -> Hn. cbn [bind]. rewrite find_one_by_id, with_id_none by exact Hn.
    reflexivity.
  - intros o d0 -> Hnd Hin Hid. cbn [bind].
    rewrite find_one_by_id, (@with_id_unique _ _ _ _ Hnd Hin Hid). cbn.
    unfold encode_id. rewrite Hid. reflexivity.
Qed.

Lemma get_chapter_answers_witness :
  get_chapter Sample.two_chapters_db "111111111111111111111111"
  = Ok (Doc (Str "111111111111111111111111")
            (ChapterDoc.mk (Str Sample.idB) "title" "text" (Some 2)) None None).
Proof.
  refine (proj2 (proj2 (get_chapter_answers Sample.two_chapters_db
                                            "111111111111111111111111"))
                (Sample.oid x11) (Sample.a_chapter x11 Sample.idB 2) eq_refl _ _ eq_refl).
  - simpl. repeat constructor; simpl; intuition discriminate.
  - simpl. auto.
Defined.

(** ** Insert, then look up *)

Lemma oid_eqb_refl (o : ObjectId.t) : oid_eqb o o = true.
Proof. apply oid_eqb_eq. reflexivity. Qed.

Lemma oid_eqb_neq (a b : ObjectId.t) : a <> b -> oid_eqb a b = false.
Proof.
  intro H. destruct (oid_eqb a b) eqn:E; [|reflexivity].
  apply oid_eqb_eq in E. contradiction.
Qed.

(** X5: a book created under a fresh 12-byte identifier is returned by
    [get_book] under the identifier [create_book] answered, with the fields
    it was created with; lookups of other identifiers answer as before, and
    the other collections are left alone. *)
Theorem create_book_then_get_book :
  forall (db : database) (b : Book.t) (fresh : ObjectId.t),
    List.length fresh = 12%nat ->
    (forall d, In d (book db) -> _id d <> Oid fresh) ->
    exists (id : string) (db' : database),
      create_book db b fresh = Ok (ObjectIdStr.mk id, db')
      /\ get_book db' id = Ok (Doc (Str id) b None None)
      /\ (forall s o, ObjectId.new s = Some o -> o <> fresh ->
                      get_book db' s = get_book db s)
      /\ chapter db' = chapter db /\ comment db' = comment db
      /\ libraryitem db' = libraryitem db.
Proof.
  intros db b fresh Hlen Hfresh.
  exists (ObjectId.str fresh),
    (set_book db (book db ++ [Doc (Oid fresh) b None None])).
  split; [reflexivity|]. split; [|split; [|repeat split]].
  - unfold get_book, to_obj_id. rewrite (@ObjectIdFacts.new_str fresh Hlen).
    cbn [bind]. rewrite find_one_by_id. cbn [book set_book].
    rewrite with_id_snoc, (@with_id_none _ _ _ Hfresh), oid_eqb_refl. reflexivity.
  - intros s o Hs Hne. unfold get_book, to_obj_id. rewrite Hs. cbn [bind].
    rewrite !find_one_by_id. cbn [book set_book].
    rewrite with_id_snoc, oid_eqb_neq, app_nil_r by congruence. reflexivity.
Qed.

Lemma create_book_then_get_book_witness :
  exists (id : string) (db' : database),
    create_book Sample.db (Sample.a_book "Delta" []) (Sample.oid x0d)
    = Ok (ObjectIdStr.mk id, db')
    /\ get_book db' id = Ok (Doc (Str id) (Sample.a_book "Delta" []) None None).
Proof.
  assert (forall d, In d (book Sample.db) -> _id d <> Oid (Sample.oid x0d)) as Hf.
  { simpl. intros d [<- | [<- | [<- | []]]]; discriminate. }
  destruct (@create_book_then_get_book Sample.db (Sample.a_book "Delta" [])
              (Sample.oid x0d) eq_refl Hf) as [id [db' [H1 [H2 _]]]].
  exists id, db'. split; assumption.
Defined.

(** X6: a chapter created under a fresh 12-byte identifier is returned by
    [get_chapter] under the identifier [create_chapter] answered, with the
    [book_id] of the request as a string and the number that was given or,
    without one, 1 plus the number of chapters the book had; lookups of other
    identifiers answer as before. *)
Theorem create_chapter_then_get_chapter :
  forall (db : database) (req : Chapter.t) (fresh : ObjectId.t),
    List.length fresh = 12%nat ->
    (forall d, In d (chapter db) -> _id d <> Oid fresh) ->
    exists (id : string) (db' : database),
      create_chapter db req fresh = Ok (ObjectIdStr.mk id, db')
      /\ get_chapter db' id
         = Ok (Doc (Str id)
                   (ChapterDoc.mk (Str (Chapter.book_id req)) (Chapter.title req)
                      (Chapter.content req)
                      (Some (match Chapter.chapter_number req with
                             | Some n => n
                             | None => 1 + Z.of_nat (chapters_of db (Chapter.book_id req))
                             end)))
                   None None)
      /\ (forall s o, ObjectId.new s = Some o -> o <> fresh ->
                      get_chapter db' s = get_chapter db s).
Proof.
  intros db req fresh Hlen Hfresh.
  set (n := match Chapter.chapter_number req with
            | Some n => n
            | None => 1 + Z.of_nat (chapters_of db (Chapter.book_id req))
            end).
  set (new := Doc (Oid fresh)
                  (ChapterDoc.mk (Str (Chapter.book_id req)) (Chapter.title req)
                     (Chapter.content req) (Some n)) None None).
  assert (create_chapter db req fresh
          = Ok (ObjectIdStr.mk (ObjectId.str fresh),
                set_chapter db (chapter db ++ [new]))) as Hc.
  { unfold create_chapter, new, n.
    destruct (Chapter.chapter_number req) as [k|] eqn:E.
    - cbn [bind]. unfold create_document, ChapterDoc.model_dump. rewrite E.
      reflexivity.
    - rewrite count_chapters. cbn [bind].
      unfold create_document, ChapterDoc.model_dump. cbn.
      rewrite (Z.add_comm _ 1). reflexivity. }
  exists (ObjectId.str fresh), (set_chapter db (chapter db ++ [new])).
  split; [exact Hc|]. split.
  - unfold get_chapter, to_obj_id. rewrite (@ObjectIdFacts.new_str fresh Hlen).
    cbn [bind]. rewrite find_one_by_id. cbn [chapter set_chapter]. unfold new.
    rewrite with_id_snoc, (@with_id_none _ _ _ Hfresh), oid_eqb_refl. reflexivity.
  - intros s o Hs Hne. unfold get_chapter, to_obj_id. rewrite Hs. cbn [bind].
    rewrite !find_one_by_id. cbn [chapter set_chapter]. unfold new.
    rewrite with_id_snoc, oid_eqb_neq, app_nil_r by congruence. reflexivity.
Qed.

Lemma create_chapter_then_get_chapter_witness :
  exists (id : string) (db' : database),
    create_chapter Sample.two_chapters_db Sample.next_chapter (Sample.oid x30)
    = Ok (ObjectIdStr.mk id, db')
    /\ get_chapter db' id
       = Ok (Doc (Str id) (ChapterDoc.mk (Str Sample.idB) "title" "text" (Some 3))
                 None None).
Proof.
  assert (forall d, In d (chapter Sample.two_chapters_db)
                    -> _id d <> Oid (Sample.oid x30)) as Hf.
  { simpl. intros d [<- | [<- | []]]; discriminate. }
  destruct (@create_chapter_then_get_chapter Sample.two_chapters_db
              Sample.next_chapter (Sample.oid x30) eq_refl Hf)
    as [id [db' [H1 [H2 _]]]].
  exists id, db'. split; assumption.
Defined.

(** ** Sorted listings *)

Section SortBy.

Variable A : Type.
Variable le : A -> A -> bool.
Hypothesis le_total : forall a b, le a b = true \/ le b a = true.
Hypothesis le_trans : forall a b c, le a b = true -> le b c = true -> le a c = true.

Let R (a b : A) : Prop := le a b = true.

Lemma insert_by_perm (x : A) (l : list A) : Permutation (insert_by le x l) (x :: l).
Proof.
  induction l as [|y l IH]; simpl; [reflexivity|].
  destruct (le x y); [reflexivity|].
  rewrite IH. apply perm_swap.
Qed.

Lemma sort_by_perm (l : list A) : Permutation (sort_by le l) l.
Proof.
  induction l as [|x l IH]; simpl; [reflexivity|].
  rewrite insert_by_perm. constructor. exact IH.
Qed.

Lemma insert_by_hd (a x : A) (l : list A) :
  R a x -> HdRel R a l -> HdRel R a (insert_by le x l).
Proof.
  intros Hx Hl. destruct l as [|y l]; simpl; [constructor; exact Hx|].
  destruct (le x y); constructor; [exact Hx|].
  inversion Hl. assumption.
Qed.

Lemma insert_by_sorted (x : A) (l : list A) :
  Sorted R l -> Sorted R (insert_by le x l).
Proof.
  induction l as [|y l IH]; simpl; intro Hs.
  - repeat constructor.
  - destruct (le x y) eqn:E.
    + constructor; [exact Hs | constructor; exact E].
    + inversion Hs as [|? ? Hl Hh]; subst. constructor; [apply IH; exact Hl|].
      apply insert_by_hd; [|exact Hh].
      destruct (le_total x y) as [H | H]; [congruence | exact H].
Qed.

Lemma sort_by_sorted (l : list A) : StronglySorted R (sort_by le l).
Proof.
  apply Sorted_StronglySorted.
  - intros a b c. apply le_trans.
  - induction l as [|x l IH]; simpl; [constructor|].
    apply insert_by_sorted. exact IH.
Qed.

End SortBy.

Lemma opt_leb_total (a b : option Z) : opt_leb a b = true \/ opt_leb b a = true.
Proof.
  destruct a as [x|], b as [y|]; simpl; auto.
  destruct (Z.leb_spec x y); [left; reflexivity | right; apply Z.leb_le; lia].
Qed.

Lemma opt_leb_trans (a b c : option Z) :
  opt_leb a b = true -> opt_leb b c = true -> opt_leb a c = true.
Proof.
  destruct a as [x|], b as [y|], c as [z|]; simpl; try discriminate; auto.
  rewrite !Z.leb_le. lia.
Qed.

Lemma find_chapters_for (db : database) (book_id : string) :
  find (chapter db) [("book_id", CEq (BStr book_id))] = Ok (chapters_for db book_id).
Proof.
  unfold find, chapters_for. cbn [compile_filter compile_cond]. f_equal.
  apply filter_ext. intro d.
  unfold ident_eqb. destruct d as [i [bid t c n] ca ua].
  destruct bid as [o|s]; cbn; [reflexivity|].
  unfold eq_matches. cbn [bson_eqb].
  rewrite orb_false_r, andb_true_r. apply String.eqb_sym.
Qed.

Lemma find_comments_for (db : database) (book_id : string) :
  find (comment db) [("book_id", CEq (BStr book_id))] = Ok (comments_for db book_id).
Proof.
  unfold find, comments_for. cbn [compile_filter compile_cond]. f_equal.
  apply filter_ext. intro d. destruct d as [i [b u c] ca ua]. cbn.
  unfold eq_matches. cbn [bson_eqb].
  rewrite orb_false_r, andb_true_r. apply String.eqb_sym.
Qed.

(** X7: [list_chapters] never fails, whatever string it is given; it returns
    the stored chapters whose [book_id] is that string, each exactly once,
    with the ["_id"] encoded, in ascending order of [chapter_number].  For a
    book without chapters, or an unknown string, that is the empty list. *)
Theorem list_chapters_sorted_by_number :
  forall (db : database) (book_id : string),
    exists l : list (doc ChapterDoc.t),
      list_chapters db book_id = Ok (map encode_id l)
      /\ Permutation l (chapters_for db book_id)
      /\ StronglySorted by_number l.
Proof.
  intros db book_id. unfold list_chapters. rewrite find_chapters_for. cbn [bind].
  eexists. split; [reflexivity|]. split.
  - apply sort_by_perm.
  - apply (sort_by_sorted
             (fun a b : doc ChapterDoc.t =>
                opt_leb (ChapterDoc.chapter_number (body a))
                        (ChapterDoc.chapter_number (body b)))).
    + intros a b. apply opt_leb_total.
    + intros a b c. apply opt_leb_trans.
Qed.

(** X8: [list_comments] never fails; it returns the stored comments of the
    book, each exactly once, with the ["_id"] encoded, newest first. *)
Theorem list_comments_newest_first :
  forall (db : database) (book_id : string),
    exists l : list (doc Comment.t),
      list_comments db book_id = Ok (map encode_id l)
      /\ Permutation l (comments_for db book_id)
      /\ StronglySorted newest_first l.
Proof.
  intros db book_id. unfold list_comments. rewrite find_comments_for. cbn [bind].
  eexists. split; [reflexivity|]. split.
  - apply sort_by_perm.
  - apply (sort_by_sorted
             (fun a b : doc Comment.t => opt_leb (created_at b) (created_at a))).
    + intros a b. apply opt_leb_total.
    + intros a b c H1 H2. exact (opt_leb_trans _ _ _ H2 H1).
Qed.

(** ** Numbering in sequence *)

Lemma create_chapter_unnumbered (db : database) (req : Chapter.t) (fresh : ObjectId.t) :
  Chapter.chapter_number req = None ->
  create_chapter db req fresh
  = Ok (ObjectIdStr.mk (ObjectId.str fresh),
        set_chapter db
          (chapter db
           ++ [Doc (Oid fresh)
                   (ChapterDoc.mk (Str (Chapter.book_id req)) (Chapter.title req)
                      (Chapter.content req)
                      (Some (Z.of_nat (chapters_of db (Chapter.book_id req)) + 1)))
                   None None])).
Proof.
  intro E. unfold create_chapter. rewrite E, count_chapters. reflexivity.
Qed.

(** X9: chapters created one after the other for one book, none with a
    number, are numbered consecutively from the number of chapters the book
    had: with [k] chapters before, the new ones get [k+1], [k+2], ... in the
    order of creation, and the chapters that existed keep their numbers. *)
Theorem create_chapters_number_consecutively :
  forall (reqs : list (Chapter.t * ObjectId.t)) (db : database) (b : string),
    (forall r, In r reqs ->
               Chapter.book_id (fst r) = b /\ Chapter.chapter_number (fst r) = None) ->
    exists db' : database,
      create_chapters db reqs = Ok db'
      /\ map (fun d => ChapterDoc.chapter_number (body d)) (chapters_for db' b)
         = map (fun d => ChapterDoc.chapter_number (body d)) (chapters_for db b)
           ++ map (fun i => Some (Z.of_nat (chapters_of db b) + Z.of_nat i))
                  (seq 1 (List.length reqs)).
Proof.
  induction reqs as [|[req fresh] reqs IH]; intros db b Hreqs.
  - exists db. split; [reflexivity|]. simpl. rewrite app_nil_r. reflexivity.
  - destruct (Hreqs (req, fresh) (or_introl eq_refl)) as [Hb Hn]. simpl in Hb, Hn.
    cbn [create_chapters]. rewrite (@create_chapter_unnumbered db req fresh Hn).
    cbn [bind snd]. rewrite Hb.
    set (new := Doc (Oid fresh) _ None None).
    destruct (IH (set_chapter db (chapter db ++ [new])) b) as [db' [Hc Hnum]].
    { intros r Hr. apply Hreqs. right. exact Hr. }
    exists db'. split; [exact Hc|]. rewrite Hnum.
    assert (chapters_for (set_chapter db (chapter db ++ [new])) b
            = chapters_for db b ++ [new]) as Hfor.
    { unfold chapters_for. cbn [chapter set_chapter]. rewrite filter_app.
      f_equal. unfold new. cbn. unfold ident_eqb. cbn.
      rewrite String.eqb_refl. reflexivity. }
    assert (chapters_of (set_chapter db (chapter db ++ [new])) b
            = S (chapters_of db b)) as Hof.
    { change (List.length (chapters_for (set_chapter db (chapter db ++ [new])) b)
              = S (List.length (chapters_for db b))).
      rewrite Hfor, length_app. simpl. lia. }
    rewrite Hfor, Hof, map_app, <- app_assoc. f_equal.
    change (List.length ((req, fresh) :: reqs)) with (S (List.length reqs)).
    rewrite <- cons_seq, <- (seq_shift (List.length reqs) 1).
    unfold new. cbn [map app body ChapterDoc.chapter_number]. f_equal.
    rewrite map_map. apply map_ext. intro i. f_equal. lia.
Qed.

Lemma create_chapters_number_consecutively_witness :
  exists db' : database,
    create_chapters Sample.two_chapters_db
      [(Sample.next_chapter, Sample.oid x30); (Sample.next_chapter, Sample.oid x31)]
    = Ok db'
    /\ map (fun d => ChapterDoc.chapter_number (body d)) (chapters_for db' Sample.idB)
       = [Some 1; Some 2; Some 3; Some 4].
Proof.
  refine (@create_chapters_number_consecutively
            [(Sample.next_chapter, Sample.oid x30); (Sample.next_chapter, Sample.oid x31)]
            Sample.two_chapters_db Sample.idB _).
  intros r [<- | [<- | []]]; split; reflexivity.
Defined.

(** ** The library, again *)

Lemma saved_pairs_snoc (db : database) (fresh : ObjectId.t) (item item' : LibraryItem.t) :
  saved_pairs
    (set_libraryitem db (libraryitem db ++ [Doc (Oid fresh) item None None])) item'
  = (saved_pairs db item'
     + if String.eqb (LibraryItem.user_id item) (LibraryItem.user_id item')
          && String.eqb (LibraryItem.book_id item) (LibraryItem.book_id item')
       then 1 else 0)%nat.
Proof.
  unfold saved_pairs. cbn [libraryitem set_libraryitem].
  rewrite filter_app, length_app. f_equal. cbn.
  destruct (_ && _); reflexivity.
Qed.

Lemma add_to_library_cases (db : database) (item : LibraryItem.t) (fresh : ObjectId.t) :
  (saved_pairs db item = 0%nat
   /\ add_to_library db item fresh
      = Ok (ObjectIdStr.mk (ObjectId.str fresh),
            set_libraryitem db (libraryitem db ++ [Doc (Oid fresh) item None None])))
  \/ (saved_pairs db item <> 0%nat
      /\ exists id, add_to_library db item fresh = Ok (ObjectIdStr.mk id, db)).
Proof.
  unfold add_to_library, find_one, saved_pairs. rewrite find_pair. cbn [bind].
  destruct (List.filter _ (libraryitem db)) as [|e l].
  - left. split; reflexivity.
  - right. split; [discriminate | eexists; reflexivity].
Qed.

(** X10: [add_to_library] keeps the library free of duplicates: if no
    (user_id, book_id) pair has more than one record before the call, none
    has after it, and the pair of the call has exactly one. *)
Theorem add_to_library_keeps_pairs_unique :
  forall (db : database) (item : LibraryItem.t) (fresh : ObjectId.t)
         (r : ObjectIdStr.t) (db' : database),
    unique_pairs db ->
    add_to_library db item fresh = Ok (r, db') ->
    unique_pairs db' /\ saved_pairs db' item = 1%nat.
Proof.
  intros db item fresh r db' Huniq E.
  destruct (add_to_library_cases db item fresh) as [[H0 Ha] | [H0 [id Ha]]];
    rewrite Ha in E; injection E as _ <-.
  - split.
    + intro item'. rewrite saved_pairs_snoc.
      destruct (String.eqb (LibraryItem.user_id item) (LibraryItem.user_id item')
                && String.eqb (LibraryItem.book_id item) (LibraryItem.book_id item'))
        eqn:Ep.
      * apply andb_true_iff in Ep as [Eu Eb].
        apply String.eqb_eq in Eu, Eb.
        assert (saved_pairs db item' = saved_pairs db item) as ->.
        { unfold saved_pairs. rewrite Eu, Eb. reflexivity. }
        rewrite H0. simpl. lia.
      * specialize (Huniq item'). lia.
    + rewrite saved_pairs_snoc, H0, !String.eqb_refl. reflexivity.
  - split; [exact Huniq|]. specialize (Huniq item). lia.
Qed.

Lemma add_to_library_keeps_pairs_unique_witness :
  unique_pairs Sample.db
  /\ exists (r : ObjectIdStr.t) (db' : database),
       add_to_library Sample.db (LibraryItem.mk "user" Sample.idA) (Sample.oid x40)
       = Ok (r, db')
       /\ unique_pairs db'
       /\ saved_pairs db' (LibraryItem.mk "user" Sample.idA) = 1%nat.
Proof.
  assert (unique_pairs Sample.db) as Hu.
  { intro item. unfold saved_pairs. simpl. lia. }
  split; [exact Hu|].
  eexists. eexists. split; [reflexivity|].
  exact (@add_to_library_keeps_pairs_unique Sample.db _ _ _ _ Hu eq_refl).
Defined.

Lemma saved_by_snoc (db : database) (fresh : ObjectId.t) (item : LibraryItem.t)
      (u : string) :
  saved_by (set_libraryitem db (libraryitem db ++ [Doc (Oid fresh) item None None])) u
  = saved_by db u
    ++ (if String.eqb (LibraryItem.user_id item) u
        then [Doc (Oid fresh) item None None] else []).
Proof.
  unfold saved_by. cbn [libraryitem set_libraryitem]. rewrite filter_app. reflexivity.
Qed.

(** X11: saving a book the user had not saved puts it at the end of the
    user's library: [get_library] afterwards returns what it returned
    before, followed by the book the new [book_id] refers to (nothing when no
    stored book has that identifier); the libraries of other users are
    unchanged. *)
Theorem add_to_library_appends_to_the_library :
  forall (db : database) (item : LibraryItem.t) (fresh : ObjectId.t),
    well_formed_ids (book db) ->
    saved_pairs db item = 0%nat ->
    exists (r : ObjectIdStr.t) (db' : database) (before : list (doc Book.t)),
      add_to_library db item fresh = Ok (r, db')
      /\ get_library db (LibraryItem.user_id item) = Ok before
      /\ get_library db' (LibraryItem.user_id item)
         = Ok (before ++ map encode_id (referenced db (LibraryItem.book_id item)))
      /\ (forall u, u <> LibraryItem.user_id item ->
                    get_library db' u = get_library db u).
Proof.
  intros db item fresh Hwf H0.
  destruct (add_to_library_cases db item fresh) as [[_ Ha] | [Hn _]];
    [|contradiction].
  set (db' := set_libraryitem db
                (libraryitem db ++ [Doc (Oid fresh) item None None])) in *.
  assert (well_formed_ids (book db')) as Hwf' by exact Hwf.
  exists (ObjectIdStr.mk (ObjectId.str fresh)), db'. eexists.
  split; [exact Ha|]. split; [apply get_library_eq; exact Hwf|]. split.
  - rewrite (@get_library_eq db' _ Hwf'). unfold db'.
    rewrite saved_by_snoc, String.eqb_refl, flat_map_app, map_app.
    cbn [flat_map body LibraryItem.book_id]. rewrite app_nil_r. reflexivity.
  - intros u Hu. rewrite (@get_library_eq db' _ Hwf'), (@get_library_eq db _ Hwf).
    unfold db'. rewrite saved_by_snoc.
    destruct (String.eqb (LibraryItem.user_id item) u) eqn:E.
    + apply String.eqb_eq in E. congruence.
    + rewrite app_nil_r. reflexivity.
Qed.

Lemma sample_db_well_formed : well_formed_ids (book Sample.db).
Proof.
  split.
  - simpl. repeat constructor; simpl; intuition discriminate.
  - repeat constructor.
Defined.

Lemma add_to_library_appends_to_the_library_witness :
  exists (r : ObjectIdStr.t) (db' : database),
    add_to_library Sample.db (LibraryItem.mk "user" Sample.idC) (Sample.oid x40)
    = Ok (r, db')
    /\ get_library db' "user" = Ok [encode_id Sample.bookC].
Proof.
  destruct (@add_to_library_appends_to_the_library Sample.db
              (LibraryItem.mk "user" Sample.idC) (Sample.oid x40)
              sample_db_well_formed eq_refl)
    as [r [db' [before [Ha [Hb [Hc _]]]]]].
  exists r, db'. split; [exact Ha|].
  cbn [LibraryItem.user_id LibraryItem.book_id] in Hb, Hc.
  rewrite Hc. vm_compute in Hb. injection Hb as <-. reflexivity.
Defined.

Lemma length_flat_map_le (A B : Type) (f : A -> list B) (l : list A) :
  (forall x, (List.length (f x) <= 1)%nat) ->
  (List.length (flat_map f l) <= List.length l)%nat.
Proof.
  intro H. induction l as [|x l IH]; simpl; [lia|].
  rewrite length_app. specialize (H x). lia.
Qed.

(** X12: [get_library] never fails, on any database and for any user: it
    returns at most one book per saved item, and every book it returns is a
    stored book with its ["_id"] encoded. *)
Theorem get_library_never_fails :
  forall (db : database) (user_id : string),
    exists l : list (doc Book.t),
      get_library db user_id = Ok l
      /\ (List.length l <= List.length (saved_by db user_id))%nat
      /\ (forall d, In d l -> exists d0, In d0 (book db) /\ d = encode_id d0).
Proof.
  intros db user_id.
  assert (exists l, get_library db user_id = Ok l
                    /\ (List.length l <= List.length (saved_by db user_id))%nat)
    as [l [E Hl]].
  { unfold get_library. rewrite find_saved_by. cbn [bind].
    rewrite valid_object_ids_decoded. cbn [bind].
    rewrite find_in_oids. cbn [bind]. eexists. split; [reflexivity|].
    rewrite <- (length_map (fun it => LibraryItem.book_id (body it))
                           (saved_by db user_id)).
    apply length_flat_map_le. intro bid.
    destruct (dict_get _ bid); [|simpl; lia].
    destruct (nth_error _ _); simpl; lia. }
  exists l. split; [exact E | split; [exact Hl|]].
  exact (get_library_encoded _ _ E).
Qed.

(** ** Category and genre *)

Lemma genre_filter (g : string) (d : doc Book.t) :
  g <> "" ->
  book_filter_matches None None None (Some g) d
  = Some (match Book.genre (body d) with
          | Some x => String.eqb g x
          | None => false
          end).
Proof.
  intro Hg. destruct g as [|a g]; [contradiction Hg; reflexivity|].
  unfold book_filter_matches. cbn.
  destruct (Book.genre (body d)) as [x|]; cbn; [|reflexivity].
  unfold eq_matches. cbn. rewrite orb_false_r, andb_true_r. reflexivity.
Qed.

(** X13: for a non-empty [category] the book-listing filter matches a
    document exactly when the value is an element of its categories, and
    for a non-empty [genre] exactly when the document's genre is that value;
    a document without a genre matches no genre. *)
Theorem category_and_genre_filters :
  (forall (c : string) (d : doc Book.t),
      c <> "" ->
      book_filter_matches None None (Some c) None d
      = Some (existsb (String.eqb c) (Book.categories (body d)))
      /\ (book_filter_matches None None (Some c) None d = Some true
          <-> In c (Book.categories (body d))))
  /\ (forall (g : string) (d : doc Book.t),
         g <> "" ->
         (exists b, book_filter_matches None None None (Some g) d = Some b)
         /\ (book_filter_matches None None None (Some g) d = Some true
             <-> Book.genre (body d) = Some g)).
Proof.
  split.
  - intros c d Hc. destruct c as [|a c]; [contradiction Hc; reflexivity|].
    assert (book_filter_matches None None (Some (String a c)) None d
            = Some (existsb (String.eqb (String a c)) (Book.categories (body d))))
      as E.
    { unfold book_filter_matches. cbn. rewrite andb_true_r. reflexivity. }
    split; [exact E|]. rewrite E, <- existsb_eqb_In.
    split; intro H; congruence.
  - intros g d Hg. rewrite (genre_filter d Hg).
    split; [eexists; reflexivity|].
    destruct (Book.genre (body d)) as [x|].
    + split; intro H.
      * injection H as H. apply String.eqb_eq in H. congruence.
      * injection H as <-. rewrite String.eqb_refl. reflexivity.
    + split; intro H; discriminate H.
Qed.

Lemma category_and_genre_filters_witness :
  book_filter_matches None None None (Some "epic")
    (Doc (Oid (Sample.oid x0a))
         (Book.mk "Alpha" None "anon" None [] ["fiction"] (Some "epic") "ongoing")
         None None) = Some true
  /\ book_filter_matches None None (Some "fiction") None
       (Doc (Oid (Sample.oid x0a))
            (Book.mk "Alpha" None "anon" None [] ["fiction"] (Some "epic") "ongoing")
            None None) = Some true.
Proof.
  assert ("epic" <> "") as Hg by discriminate.
  assert ("fiction" <> "") as Hc by discriminate.
  split.
  - apply (proj2 (proj2 category_and_genre_filters "epic" _ Hg)). reflexivity.
  - apply (proj2 (proj1 category_and_genre_filters "fiction" _ Hc)).
    simpl. left. reflexivity.
Defined.

(** ** Trending, as the pipeline computes it *)

Lemma trending_le_total (a b : doc Trending.t) :
  trending_le a b = true \/ trending_le b a = true.
Proof.
  unfold trending_le.
  destruct (Z.ltb_spec (Trending.chapters_count (body b))
                       (Trending.chapters_count (body a))); [left; reflexivity|].
  destruct (Z.ltb_spec (Trending.chapters_count (body a))
                       (Trending.chapters_count (body b))); [right; reflexivity|].
  assert (Trending.chapters_count (body a) = Trending.chapters_count (body b)) as E
    by lia.
  rewrite E, Z.eqb_refl. simpl.
  destruct (opt_leb_total (updated_at a) (updated_at b)); auto.
Qed.

Lemma trending_le_trans (a b c : doc Trending.t) :
  trending_le a b = true -> trending_le b c = true -> trending_le a c = true.
Proof.
  unfold trending_le. intros H1 H2.
  apply orb_true_iff in H1, H2. apply orb_true_iff.
  rewrite !andb_true_iff, !Z.ltb_lt, !Z.eqb_eq in *.
  destruct H1 as [H1 | [E1 U1]], H2 as [H2 | [E2 U2]]; try (left; lia).
  right. split; [lia|]. exact (opt_leb_trans _ _ _ U2 U1).
Qed.

Lemma StronglySorted_app (A : Type) (R : A -> A -> Prop) (l1 l2 : list A) :
  StronglySorted R (l1 ++ l2) ->
  StronglySorted R l1 /\ (forall a b, In a l1 -> In b l2 -> R a b).
Proof.
  induction l1 as [|x l1 IH]; simpl; intro H.
  - split; [constructor | intros a b []].
  - inversion H as [|? ? Hs Hf]; subst. destruct (IH Hs) as [H1 H2].
    rewrite Forall_forall in Hf. split.
    + constructor; [exact H1|]. apply Forall_forall. intros y Hy.
      apply Hf. apply in_or_app. left. exact Hy.
    + intros a b [<- | Ha] Hb; [|apply H2; assumption].
      apply Hf. apply in_or_app. right. exact Hb.
Qed.

Lemma filter_all (A : Type) (l : list A) : List.filter (fun _ => true) l = l.
Proof. induction l as [|x l IH]; simpl; congruence. Qed.

Lemma joined_counts (db : database) (d0 : doc Book.t) :
  joined db d0
  = Doc (_id d0)
        (Trending.mk (body d0) (joinable db d0)
                     (Z.of_nat (List.length (joinable db d0))))
        (created_at d0) (updated_at d0).
Proof.
  unfold joined, add_fields_stage, lookup_stage. cbn.
  rewrite filter_all. reflexivity.
Qed.

(** X14: [discover_trending] answers with the store's error when the limit
    is not positive.  Otherwise it returns [min limit n] of the [n] stored
    books, each once, zero-chapter books included; a book carries the stored
    chapters whose [book_id] equals its ["_id"] as a BSON value and their
    number; the list is ordered by that number, larger first, then by
    [updated_at], later first, and no book left out would rank before one
    returned. *)
Theorem discover_trending_ranks_by_joined_chapters :
  forall (db : database) (limit : option Z),
    (default 12 limit <= 0 ->
     discover_trending db limit = Raise (Exception "OperationFailure"))
    /\ (0 < default 12 limit ->
        exists l rest : list (doc Trending.t),
          discover_trending db limit = Ok (map encode_id l)
          /\ Permutation (l ++ rest)
               (map (fun d0 =>
                       Doc (_id d0)
                           (Trending.mk (body d0) (joinable db d0)
                              (Z.of_nat (List.length (joinable db d0))))
                           (created_at d0) (updated_at d0))
                    (book db))
          /\ List.length l
             = Nat.min (Z.to_nat (default 12 limit)) (List.length (book db))
          /\ StronglySorted trending_order l
          /\ (forall a b, In a l -> In b rest -> trending_order a b)).
Proof.
  intros db limit. unfold discover_trending, aggregate_trending. split.
  - intro H. apply Z.leb_le in H. rewrite H. reflexivity.
  - intro H. apply Z.leb_gt in H. rewrite H. cbn [bind].
    set (n := Z.to_nat (default 12 limit)).
    set (s := sort_by trending_le
                      (map add_fields_stage (map (lookup_stage (chapter db)) (book db)))).
    assert (Permutation s
              (map (fun d0 =>
                      Doc (_id d0)
                          (Trending.mk (body d0) (joinable db d0)
                             (Z.of_nat (List.length (joinable db d0))))
                          (created_at d0) (updated_at d0))
                   (book db))) as Hp.
    { unfold s. rewrite sort_by_perm, map_map.
      erewrite map_ext; [reflexivity|]. intro d0. apply joined_counts. }
    assert (StronglySorted trending_order s) as Hs.
    { unfold s. apply sort_by_sorted; [exact trending_le_total|].
      exact trending_le_trans. }
    exists (firstn n s), (skipn n s).
    split; [reflexivity|]. rewrite firstn_skipn. split; [exact Hp|]. split.
    + rewrite length_firstn. apply Permutation_length in Hp.
      rewrite Hp, length_map. reflexivity.
    + rewrite <- (firstn_skipn n s) in Hs. apply StronglySorted_app in Hs. exact Hs.
Qed.

Lemma discover_trending_ranks_by_joined_chapters_witness :
  exists l rest : list (doc Trending.t),
    discover_trending Sample.native_ref_db None = Ok (map encode_id l)
    /\ map (fun d => Trending.chapters_count (body d)) l = [1]
    /\ rest = [].
Proof.
  destruct (proj2 (discover_trending_ranks_by_joined_chapters
                     Sample.native_ref_db None) eq_refl)
    as [l [rest [E [Hp [Hl _]]]]].
  exists l, rest. split; [exact E|].
  destruct l as [|x [|y l]]; try discriminate Hl.
  destruct rest as [|r rest]; [|apply Permutation_length in Hp; discriminate Hp].
  simpl in Hp. apply Permutation_length_1_inv in Hp. injection Hp as <-.
  split; reflexivity.
Defined.

(** X15: when every stored chapter's [book_id] is a string and every book
    has a native identifier, which is how the endpoints write them,
    [discover_trending] attaches no chapter to any book and counts 0 for
    every book it returns. *)
Theorem discover_trending_counts_nothing_for_string_references :
  forall (db : database) (limit : option Z) (docs : list (doc Trending.t)),
    Forall (fun c => native (ChapterDoc.book_id (body c)) = false) (chapter db) ->
    Forall (fun b => native (_id b) = true) (book db) ->
    discover_trending db limit = Ok docs ->
    Forall (fun d => Trending.chapters (body d) = []
                     /\ Trending.chapters_count (body d) = 0) docs.
Proof.
  intros db limit docs Hc Hb E.
  pose proof (@discover_trending_encoded _ _ _ E) as He.
  apply Forall_forall. intros d Hd.
  destruct (He d Hd) as [d0 [Hd0 ->]].
  rewrite Forall_forall in Hb.
  pose proof (@joined_nothing db d0 Hc (Hb d0 Hd0)) as Hj.
  rewrite joined_counts in *. cbn in *. rewrite Hj. split; reflexivity.
Qed.

Lemma discover_trending_counts_nothing_for_string_references_witness :
  exists docs : list (doc Trending.t),
    discover_trending Sample.db (Some 3) = Ok docs
    /\ List.length docs = 3%nat
    /\ Forall (fun d => Trending.chapters (body d) = []
                        /\ Trending.chapters_count (body d) = 0) docs.
Proof.
  assert (exists docs, discover_trending Sample.db (Some 3) = Ok docs
                       /\ List.length docs = 3%nat) as [docs [E L]].
  { eexists. split; vm_compute; reflexivity. }
  exists docs. split; [exact E | split; [exact L|]].
  apply (@discover_trending_counts_nothing_for_string_references
           Sample.db (Some 3) docs); [repeat constructor .. | exact E].
Defined.

(** ** What the write endpoints keep *)

Lemma create_chapter_appends (db : database) (req : Chapter.t) (fresh : ObjectId.t)
      (r : ObjectIdStr.t) (db' : database) :
  create_chapter db req fresh = Ok (r, db') ->
  exists n, r = ObjectIdStr.mk (ObjectId.str fresh)
            /\ db' = set_chapter db
                    (chapter db
                     ++ [Doc (Oid fresh)
                             (ChapterDoc.mk (Str (Chapter.book_id req))
                                (Chapter.title req) (Chapter.content req) n)
                             None None]).
Proof.
  unfold create_chapter. intro E.
  destruct (Chapter.chapter_number req) as [k|] eqn:Ek.
  - cbn [bind] in E. unfold create_document, ChapterDoc.model_dump in E.
    injection E as <- <-. eexists. split; reflexivity.
  - rewrite count_chapters in E. cbn [bind] in E.
    unfold create_document, ChapterDoc.model_dump in E. cbn in E.
    injection E as <- <-. eexists. split; reflexivity.
Qed.

(** X16: the empty database is endpoint-shaped (every ["_id"] native, every
    chapter's [book_id] a string), and [create_book], [create_chapter],
    [add_comment] and [add_to_library] keep a database so. *)
Theorem write_endpoints_keep_the_shape :
  endpoint_shaped (Database [] [] [] [])
  /\ (forall db, endpoint_shaped db ->
        (forall b fresh r db', create_book db b fresh = Ok (r, db') ->
                               endpoint_shaped db')
        /\ (forall req fresh r db', create_chapter db req fresh = Ok (r, db') ->
                                    endpoint_shaped db')
        /\ (forall c fresh r db', add_comment db c fresh = Ok (r, db') ->
                                  endpoint_shaped db')
        /\ (forall item fresh r db', add_to_library db item fresh = Ok (r, db') ->
                                     endpoint_shaped db')).
Proof.
  assert (forall (A : Type) (P : doc A -> Prop) (l : list (doc A)) (d : doc A),
             Forall P l -> P d -> Forall P (l ++ [d])) as Hsnoc.
  { intros A P l d Hl Hd. apply Forall_app. split; [exact Hl | repeat constructor].
    exact Hd. }
  split; [unfold endpoint_shaped; simpl; repeat split; constructor|].
  intros db [Hb [Hc [Hm [Hl Hr]]]].
  split; [|split; [|split]].
  - intros b fresh r db' E. unfold create_book, create_document in E.
    injection E as _ <-. unfold endpoint_shaped. cbn.
    repeat split; try assumption. apply Hsnoc; [assumption | reflexivity].
  - intros req fresh r db' E. apply create_chapter_appends in E as [n [_ ->]].
    unfold endpoint_shaped. cbn.
    repeat split; try assumption; apply Hsnoc; (assumption || reflexivity).
  - intros c fresh r db' E. unfold add_comment, create_document in E.
    injection E as _ <-. unfold endpoint_shaped. cbn.
    repeat split; try assumption. apply Hsnoc; [assumption | reflexivity].
  - intros item fresh r db' E.
    destruct (add_to_library_cases db item fresh) as [[_ Ha] | [_ [id Ha]]];
      rewrite Ha in E; injection E as _ <-; unfold endpoint_shaped; cbn;
      repeat split; try assumption.
    apply Hsnoc; [assumption | reflexivity].
Qed.

Lemma write_endpoints_keep_the_shape_witness :
  exists (r : ObjectIdStr.t) (db' : database),
    create_chapter (Database [] [] [] []) Sample.next_chapter (Sample.oid x30)
    = Ok (r, db')
    /\ endpoint_shaped db'.
Proof.
  eexists. eexists. split; [reflexivity|].
  exact (proj1 (proj2 (proj2 write_endpoints_keep_the_shape (Database [] [] [] [])
                             (proj1 write_endpoints_keep_the_shape)))
               Sample.next_chapter (Sample.oid x30) _ _ eq_refl).
Defined.

(** ** Browsing *)



Lemma Query_Ok (d lo hi : Z) (param : string) (x : option Z) (v : Z) :
  lo <= d <= hi ->
  Query d lo hi param x = Ok v ->
  lo <= v <= hi /\ (x = None -> v = d) /\ (forall n, x = Some n -> v = n).
Proof.
  intros Hd. unfold Query. destruct x as [n|].
  - destruct ((lo <=? n) && (n <=? hi)) eqn:E; intro H; [|discriminate H].
    injection H as <-. apply andb_true_iff in E as [H1 H2].
    apply Z.leb_le in H1, H2.
    split; [lia | split; [discriminate | intros m Hm; congruence]].
  - intro H. injection H as <-.
    split; [exact Hd | split; [reflexivity | discriminate]].
Qed.

(** X18: [list_books] refuses a limit below 1 or above 100 before it touches
    the store; when it answers, it returns at most [limit] books, at most 50
    without a limit and never more than 100, and every one is a stored book
    that matches the filter, with its ["_id"] encoded. *)
Theorem list_books_honours_the_limit :
  forall (db : database) (q tag category genre : option string) (limit : option Z),
    (forall n, limit = Some n -> n < 1 \/ 100 < n ->
               list_books db q tag category genre limit
               = Raise (RequestValidationError "limit"))
    /\ (forall l, list_books db q tag category genre limit = Ok l ->
                  (List.length l <= 100)%nat
                  /\ (forall n, limit = Some n -> Z.of_nat (List.length l) <= n)
                  /\ (limit = None -> (List.length l <= 50)%nat)
                  /\ (forall d, In d l ->
                                exists d0, In d0 (book db) /\ d = encode_id d0
                                           /\ book_filter_matches q tag category genre d0
                                              = Some true)).
Proof.
  intros db q tag category genre limit. split.
  - intros n -> Hn. unfold list_books, Query.
    destruct ((1 <=? n) && (n <=? 100)) eqn:E; [|reflexivity].
    apply andb_true_iff in E as [H1 H2]. apply Z.leb_le in H1, H2. lia.
  - intros l E. unfold list_books in E. inv_bind E. inv_bind E. inv_ok E.
    apply Query_Ok in Hx as [Hr [Hd Hs]]; [|lia].
    unfold get_documents, find in Hx0.
    destruct (compile_filter (filter_dict q tag category genre)) as [cf|] eqn:Ecf;
      [|discriminate Hx0].
    cbn [bind] in Hx0. injection Hx0 as <-.
    rewrite length_map.
    pose proof (firstn_le_length (Z.to_nat x)
                  (List.filter (fun d => filter_matches cf (doc_fields d)) (book db)))
      as Hlen.
    split; [lia|]. split; [|split].
    + intros n Hn. rewrite <- (Hs n Hn). lia.
    + intro Hnone. rewrite (Hd Hnone) in *. lia.
    + intros d Hd'. apply in_map_iff in Hd' as [d0 [<- Hd0]].
      apply In_firstn in Hd0. apply filter_In in Hd0 as [Hin Hm].
      exists d0. split; [exact Hin | split; [reflexivity|]].
      unfold book_filter_matches. rewrite Ecf. cbn. rewrite Hm. reflexivity.
Qed.

(** ** Insert, then list *)

(** X19: after [create_chapter], [list_chapters] of the request's book
    returns what it returned before and the new chapter, under the
    identifier [create_chapter] answered; the listings of other books are
    unchanged. *)
Theorem create_chapter_then_list_chapters :
  forall (db : database) (req : Chapter.t) (fresh : ObjectId.t)
         (r : ObjectIdStr.t) (db' : database),
    create_chapter db req fresh = Ok (r, db') ->
    exists (before after : list (doc ChapterDoc.t)) (new : doc ChapterDoc.t),
      list_chapters db (Chapter.book_id req) = Ok before
      /\ list_chapters db' (Chapter.book_id req) = Ok after
      /\ Permutation after (new :: before)
      /\ _id new = Str (ObjectIdStr.id r)
      /\ ChapterDoc.title (body new) = Chapter.title req
      /\ ChapterDoc.content (body new) = Chapter.content req
      /\ (forall b, b <> Chapter.book_id req ->
                    list_chapters db' b = list_chapters db b).
Proof.
  intros db req fresh r db' E.
  apply create_chapter_appends in E as [n [-> ->]].
  set (new := Doc (Oid fresh) _ None None).
  assert (forall b, chapters_for (set_chapter db (chapter db ++ [new])) b
                    = chapters_for db b
                      ++ (if String.eqb (Chapter.book_id req) b then [new] else []))
    as Hfor.
  { intro b. unfold chapters_for. cbn [chapter set_chapter].
    rewrite filter_app. reflexivity. }
  eexists. eexists. exists (encode_id new).
  unfold list_chapters. rewrite !find_chapters_for. cbn [bind].
  split; [reflexivity|]. split; [reflexivity|]. split; [|repeat split].
  - rewrite Hfor, String.eqb_refl.
    change (encode_id new :: map encode_id ?l) with (map encode_id (new :: l)).
    apply Permutation_map.
    rewrite !sort_by_perm. symmetry. apply Permutation_cons_append.
  - intros b Hb. rewrite !find_chapters_for. cbn [bind]. rewrite Hfor.
    destruct (String.eqb (Chapter.book_id req) b) eqn:Eb.
    + apply String.eqb_eq in Eb. congruence.
    + rewrite app_nil_r. reflexivity.
Qed.

Lemma create_chapter_then_list_chapters_witness :
  exists (r : ObjectIdStr.t) (db' : database) (after : list (doc ChapterDoc.t)),
    create_chapter Sample.two_chapters_db Sample.next_chapter (Sample.oid x30)
    = Ok (r, db')
    /\ list_chapters db' Sample.idB = Ok after
    /\ List.length after = 3%nat.
Proof.
  eexists. eexists.
  destruct (@create_chapter_then_list_chapters Sample.two_chapters_db
              Sample.next_chapter (Sample.oid x30) _ _ eq_refl)
    as [before [after [new [Hb [Ha [Hp _]]]]]].
  exists after. split; [reflexivity | split; [exact Ha|]].
  apply Permutation_length in Hp. rewrite Hp.
  vm_compute in Hb. injection Hb as <-. reflexivity.
Defined.

(** X20: after [add_comment], [list_comments] of the comment's book returns
    what it returned before and the new comment, under the identifier
    [add_comment] answered; the listings of other books are unchanged. *)
Theorem add_comment_then_list_comments :
  forall (db : database) (c : Comment.t) (fresh : ObjectId.t)
         (r : ObjectIdStr.t) (db' : database),
    add_comment db c fresh = Ok (r, db') ->
    exists before after : list (doc Comment.t),
      list_comments db (Comment.book_id c) = Ok before
      /\ list_comments db' (Comment.book_id c) = Ok after
      /\ Permutation after (Doc (Str (ObjectIdStr.id r)) c None None :: before)
      /\ (forall b, b <> Comment.book_id c ->
                    list_comments db' b = list_comments db b).
Proof.
  intros db c fresh r db' E.
  unfold add_comment, create_document in E. injection E as <- <-.
  set (new := Doc (Oid fresh) c None None).
  assert (forall b, comments_for (set_comment db (comment db ++ [new])) b
                    = comments_for db b
                      ++ (if String.eqb (Comment.book_id c) b then [new] else []))
    as Hfor.
  { intro b. unfold comments_for. cbn [comment set_comment].
    rewrite filter_app. reflexivity. }
  eexists. eexists.
  unfold list_comments. rewrite !find_comments_for. cbn [bind].
  split; [reflexivity|]. split; [reflexivity|]. split.
  - rewrite Hfor, String.eqb_refl.
    change (Doc (Str (ObjectIdStr.id (ObjectIdStr.mk (ObjectId.str fresh)))) c None None
            :: map encode_id ?l)
      with (map encode_id (new :: l)).
    apply Permutation_map.
    rewrite !sort_by_perm. symmetry. apply Permutation_cons_append.
  - intros b Hb. rewrite !find_comments_for. cbn [bind]. rewrite Hfor.
    destruct (String.eqb (Comment.book_id c) b) eqn:Eb.
    + apply String.eqb_eq in Eb. congruence.
    + rewrite app_nil_r. reflexivity.
Qed.

Lemma add_comment_then_list_comments_witness :
  exists (r : ObjectIdStr.t) (db' : database),
    add_comment Sample.db (Comment.mk Sample.idA "reader" "nice") (Sample.oid x50)
    = Ok (r, db')
    /\ list_comments db' Sample.idA
       = Ok [Doc (Str "505050505050505050505050")
                 (Comment.mk Sample.idA "reader" "nice") None None].
Proof.
  eexists. eexists.
  destruct (@add_comment_then_list_comments Sample.db
              (Comment.mk Sample.idA "reader" "nice") (Sample.oid x50) _ _ eq_refl)
    as [before [after [Hb [Ha [Hp _]]]]].
  split; [reflexivity|].
  cbn [Comment.book_id] in Ha, Hb. rewrite Ha.
  vm_compute in Hb. injection Hb as <-.
  apply Permutation_sym, Permutation_length_1_inv in Hp. rewrite Hp. reflexivity.
Defined.

(** ** Case in the text query *)

Lemma ascii_lower_facts (c : ascii) :
  ascii_lower (ascii_lower c) = ascii_lower c
  /\ Regex.is_meta (ascii_lower c) = Regex.is_meta c.
Proof.
  destruct c as [[] [] [] [] [] [] [] []]; split; reflexivity.
Qed.

Lemma lower_string_py_lower (s : string) : lower_string (py_lower s) = lower_string s.
Proof.
  unfold lower_string, py_lower. rewrite list_ascii_of_string_of_list_ascii, map_map.
  apply map_ext. intro c. apply ascii_lower_facts.
Qed.

Lemma plain_py_lower (q : string) : plain (py_lower q) = plain q.
Proof.
  unfold plain, py_lower. rewrite list_ascii_of_string_of_list_ascii.
  induction (list_ascii_of_string q) as [|c l IH]; [reflexivity|].
  cbn [map forallb]. rewrite IH, (proj2 (ascii_lower_facts c)). reflexivity.
Qed.

Lemma text_filter_substring (q : string) (d : doc Book.t) :
  q <> "" -> plain q = true ->
  exists b, book_filter_matches (Some q) None None None d = Some b
            /\ (b = true <-> ci_substring q (Book.title (body d))).
Proof.
  intros Hq Hp. rewrite (text_filter d Hq Hp). eexists. split; [reflexivity|].
  unfold ci_substring, lower_string. apply search_lits.
Qed.

(** X21: for a query without regular-expression metacharacters the text
    filter looks neither at the case of the query nor at the case of the
    title: the lower-case form of the query matches the same documents, and
    two documents whose titles differ only in case are matched alike. *)
Theorem text_query_ignores_case :
  forall (q : string) (d d' : doc Book.t),
    q <> "" -> plain q = true ->
    lower_string (Book.title (body d')) = lower_string (Book.title (body d)) ->
    book_filter_matches (Some (py_lower q)) None None None d'
    = book_filter_matches (Some q) None None None d.
Proof.
  intros q d d' Hq Hp Ht.
  assert (py_lower q <> "") as Hq'.
  { destruct q as [|c q]; [contradiction Hq; reflexivity | discriminate]. }
  assert (plain (py_lower q) = true) as Hp' by (rewrite plain_py_lower; exact Hp).
  destruct (text_filter_substring d Hq Hp) as [b [E Hb]].
  destruct (text_filter_substring d' Hq' Hp') as [b' [E' Hb']].
  rewrite E, E'. f_equal.
  assert (ci_substring (py_lower q) (Book.title (body d'))
          <-> ci_substring q (Book.title (body d))) as Hs.
  { unfold ci_substring. rewrite lower_string_py_lower, Ht. reflexivity. }
  destruct b, b'; try reflexivity; exfalso.
  - assert (false = true) as F by (apply Hb', Hs, Hb; reflexivity). discriminate F.
  - assert (false = true) as F by (apply Hb, Hs, Hb'; reflexivity). discriminate F.
Qed.

Lemma text_query_ignores_case_witness :
  book_filter_matches (Some "abc") None None None Sample.bookC
  = book_filter_matches (Some "ABC") None None None Sample.bookC.
Proof.
  assert ("ABC" <> "") as Hq by discriminate.
  exact (@text_query_ignores_case "ABC" Sample.bookC Sample.bookC Hq eq_refl eq_refl).
Defined.

(** ** Spellings the library does not resolve *)

Lemma referenced_canonical (db : database) (bid : string) :
  well_formed_ids (book db) -> lower_hex24 bid = false -> referenced db bid = [].
Proof.
  intros [_ Hlen] Hbad. apply filter_none. intros d Hd.
  rewrite Forall_forall in Hlen. specialize (Hlen d Hd).
  destruct (_id d) as [o|s]; [|reflexivity].
  destruct (String.eqb (ObjectId.str o) bid) eqn:E; [|reflexivity].
  apply String.eqb_eq in E. rewrite <- E in Hbad.
  rewrite (@ObjectIdFacts.str_lower_hex24 o Hlen) in Hbad. discriminate Hbad.
Qed.

(** X22: [get_library] resolves a saved [book_id] only in its encoded
    spelling: a user whose saved [book_id]s are all something else than 24
    lower-case hexadecimal characters gets the empty list, even for an
    upper-case spelling that [get_book] resolves to a stored book. *)
Theorem get_library_skips_other_spellings :
  forall (db : database) (user_id : string),
    well_formed_ids (book db) ->
    Forall (fun it => lower_hex24 (LibraryItem.book_id (body it)) = false)
           (saved_by db user_id) ->
    get_library db user_id = Ok [].
Proof.
  intros db user_id Hwf Hall. rewrite (@get_library_eq db user_id Hwf).
  assert (flat_map (fun it => referenced db (LibraryItem.book_id (body it)))
                   (saved_by db user_id) = []) as ->; [|reflexivity].
  induction Hall as [|it l Hit Hl IH]; [reflexivity|]. cbn [flat_map].
  rewrite (@referenced_canonical db _ Hwf Hit), IH. reflexivity.
Qed.

Lemma get_library_skips_other_spellings_witness :
  get_library
    (Database [Sample.bookA] [] [] [Sample.saved x20 "0A0A0A0A0A0A0A0A0A0A0A0A"])
    "user" = Ok []
  /\ get_book
       (Database [Sample.bookA] [] [] [Sample.saved x20 "0A0A0A0A0A0A0A0A0A0A0A0A"])
       "0A0A0A0A0A0A0A0A0A0A0A0A"
     = Ok (encode_id Sample.bookA).
Proof.
  split; [|reflexivity].
  apply get_library_skips_other_spellings.
  - split; [simpl; repeat constructor; simpl; tauto | repeat constructor].
  - repeat constructor.
Defined.
